(** * METAR to Lattice integration: classification and reconciliation engine

    A shallow embedding of the two variants of the integration,
    [metar_lattice_integration.py] (module [Original]) and
    [WIP-prompt 2/metar_lattice_integration_modified_2.py] (module
    [Modified]), followed by the properties of the flight-category
    classifier, the health evaluators, the disposition mapping, the entity
    synthesizer and the publishing loops.

    Numbers.  The parser hands out Python floats; a finite float is carried
    here as the rational it denotes ([Q]), and Python compares a float with
    an integer literal exactly, so [<] and [>] against the thresholds are
    the comparisons of [Q].  Cloud heights and the ceiling are whole feet
    ([Z], the annotation is [Optional[int]]). *)

From Stdlib Require Import String Ascii List ZArith QArith Bool Lia Lqa DecimalString Sorted.
Import ListNotations.

Local Open Scope Z_scope.
Local Open Scope list_scope.

Notation "a ^^ b" := (String.append a b) (at level 60, right associativity).

(** ** Python values and control *)

Module Py.

(** [x < y] on floats. *)
Definition Qltb (x y : Q) : bool :=
  match (x ?= y)%Q with Lt => true | _ => false end.

(** Truth value of an optional float: [None] and [0.0] are false. *)
Definition truthy_float (x : option Q) : bool :=
  match x with
  | None => false
  | Some q => negb (Qeq_bool q 0)
  end.

(** Truth value of an optional int: [None] and [0] are false. *)
Definition truthy_int (x : option Z) : bool :=
  match x with
  | None => false
  | Some z => negb (z =? 0)
  end.

(** Truth value of a string: only the empty string is false. *)
Definition truthy_str (s : string) : bool :=
  match s with EmptyString => false | _ => true end.

Definition truthy_opt_str (s : option string) : bool :=
  match s with None => false | Some s => truthy_str s end.

(** [x or d] for an optional float [x]. *)
Definition float_or (x : option Q) (d : Q) : Q :=
  match x with
  | Some q => if truthy_float x then q else d
  | None => d
  end.

(** [str(n)] for a length and for an int. *)
Definition str_of_nat (n : nat) : string := NilEmpty.string_of_uint (Nat.to_uint n).
Definition str_of_int (z : Z) : string := NilZero.string_of_int (Z.to_int z).

(** [d.get(k)] on a dict kept as an association list in insertion order. *)
Fixpoint dict_get {V : Type} (d : list (string * V)) (k : string) : option V :=
  match d with
  | [] => None
  | (k', v) :: d' => if String.eqb k k' then Some v else dict_get d' k
  end.

(** [d[k] = v]: the value of a key already there is replaced in place, a
    new key goes to the end. *)
Fixpoint dict_set {V : Type} (d : list (string * V)) (k : string) (v : V)
    : list (string * V) :=
  match d with
  | [] => [(k, v)]
  | (k', v') :: d' =>
      if String.eqb k k' then (k', v) :: d' else (k', v') :: dict_set d' k v
  end.

(** [s.upper()] on ASCII text. *)
Definition upper_ascii (c : ascii) : ascii :=
  let n := nat_of_ascii c in
  if ((97 <=? n) && (n <=? 122))%nat then ascii_of_nat (n - 32) else c.

Fixpoint upper (s : string) : string :=
  match s with
  | EmptyString => EmptyString
  | String c s' => String (upper_ascii c) (upper s')
  end.

(** [x or y] for optional strings. *)
Definition str_or (x y : option string) : option string :=
  if truthy_opt_str x then x else y.

(** [d.get(k, '')] for a key that holds a string. *)
Definition get_str (x : option string) : string :=
  match x with Some v => v | None => EmptyString end.

(** What a raised exception is: an instance of [Exception], caught by
    [except Exception], or [KeyboardInterrupt], which is not. *)
Inductive exn : Type :=
| Exception (msg : string)
| KeyboardInterrupt.

Inductive res (A : Type) : Type :=
| Ret (a : A)
| Raise (e : exn).
Arguments Ret {A} a.
Arguments Raise {A} e.

End Py.
Import Py.

(** ** The SDK's enumerations and messages *)

(** Modelled from the spec: the enumeration [HealthStatus] belongs to the
    Lattice SDK, which is not part of the repository.  Its members are the
    four levels, under the names the modified variant returns them by:
    the level the specification calls ERROR is [FAIL] here. *)
Module HealthStatus.
Inductive t : Type := HEALTHY | WARN | FAIL | OFFLINE.
End HealthStatus.

(** [HealthStatus.ERROR]: the name of the level in the earlier variants,
    and not a member of the enumeration.  The lookup raises
    [AttributeError]; of its text, which the interpreter words, the name
    of the attribute is kept. *)
Definition HealthStatus_ERROR : res HealthStatus.t := Raise (Exception "ERROR").

(** Modelled from the spec: the enumeration [Disposition] of the SDK, with
    the three members the specification lists. *)
Module Disposition.
Inductive t : Type := ASSUMED_FRIENDLY | SUSPICIOUS | HOSTILE.
End Disposition.

(** The four levels of the specification's vocabulary. *)
Inductive HealthBand : Type := BandHealthy | BandWarn | BandError | BandOffline.

(** Modelled from the spec: the design notes take [FAIL] and [ERROR] as two
    names of one level. *)
Definition band (h : HealthStatus.t) : HealthBand :=
  match h with
  | HealthStatus.HEALTHY => BandHealthy
  | HealthStatus.WARN => BandWarn
  | HealthStatus.FAIL => BandError
  | HealthStatus.OFFLINE => BandOffline
  end.

Inductive Environment : Type := AIR | SURFACE.
Inductive Template : Type := SENSOR_POINT_OF_INTEREST.

(** A component's [id] is either text or the class attribute
    [Entity.entity_id], an expression that mentions no station. *)
Inductive ComponentId : Type :=
| IdText (s : string)
| IdClassAttribute (cls attr : string).

(** The text of a component message: the f-string's template with its
    arguments, left unrendered. *)
Inductive MessageText : Type :=
| CurrentFlightCondition (flight_condition : string)
| CurrentTemperature (temperature_c temperature_f : Q)
| CurrentWindSpeed (wind_speed : Q)
| CurrentVisibility (visibility : Q).

Record ComponentMessage : Type := {
  message : MessageText;
  status : HealthStatus.t
}.

Record ComponentHealth : Type := {
  id : ComponentId;
  name : string;
  health : HealthStatus.t;
  messages : list ComponentMessage
}.

Record Health : Type := {
  health_status : HealthStatus.t;
  components : list ComponentHealth
}.

Record Position : Type := { latitude_degrees : Q; longitude_degrees : Q }.
Record MilView : Type := { disposition : Disposition.t; environment : Environment }.
Record Ontology : Type := { template : Template; platform_type : string }.
Record Provenance : Type := {
  integration_name : string;
  data_type : string;
  source_update_time : Z
}.

Record Entity : Type := {
  entity_id : string;
  description : string;
  created_time : Z;
  expiry_time : Z;
  is_live : bool;
  aliases_name : string;
  location_position : Position;
  mil_view : MilView;
  ontology : Ontology;
  entity_health : Health;
  provenance : Provenance
}.

(** ** The world outside the process

    Times are seconds.  [clock] is [datetime.now(timezone.utc)], [elapse]
    what [asyncio.sleep] does to the world, [stub_publish_entity] the gRPC
    call of the entity manager: [None] when it returns, [Some msg] when it
    raises [Exception(msg)]. *)

Class Runtime : Type := {
  Env : Type;
  clock : Env -> Z;
  elapse : Z -> Env -> Env;
  stub_publish_entity : Entity -> list (string * string) -> Env -> option string * Env
}.

Inductive Level : Type := INFO | WARNING | ERROR.

Inductive Event : Type :=
| Logged (lvl : Level) (msg : string)
| Slept (seconds : Z)
| Sent (entity : Entity) (metadata : list (string * string)) (failure : option string).

Section Monad.
Context `{RT : Runtime}.

(** The state a coroutine runs in: the world, and what the process has
    logged, slept and sent so far (oldest first). *)
Record State : Type := { env : Env; trace : list Event }.

Definition M (A : Type) : Type := State -> res A * State.

Definition ret {A} (a : A) : M A := fun s => (Ret a, s).
Definition raise {A} (e : exn) : M A := fun s => (Raise e, s).

Definition bind {A B} (m : M A) (k : A -> M B) : M B :=
  fun s =>
    match m s with
    | (Ret a, s') => k a s'
    | (Raise e, s') => (Raise e, s')
    end.

(** [try: m  except Exception as e: h e] *)
Definition try_except {A} (m : M A) (h : string -> M A) : M A :=
  fun s =>
    match m s with
    | (Raise (Exception msg), s') => h msg s'
    | r => r
    end.

Definition emit (ev : Event) : M unit :=
  fun s => (Ret tt, {| env := env s; trace := trace s ++ [ev] |}).

Definition logger (lvl : Level) (msg : string) : M unit := emit (Logged lvl msg).

Definition datetime_now : M Z := fun s => (Ret (clock (env s)), s).

Definition asyncio_sleep (seconds : Z) : M unit :=
  fun s => (Ret tt, {| env := elapse seconds (env s); trace := trace s ++ [Slept seconds] |}).

(** [await stub.publish_entity(request, metadata=metadata)] *)
Definition stub_call (entity : Entity) (metadata : list (string * string)) : M unit :=
  fun s =>
    let '(r, e') := stub_publish_entity entity metadata (env s) in
    let s' := {| env := e'; trace := trace s ++ [Sent entity metadata r] |} in
    match r with
    | None => (Ret tt, s')
    | Some msg => (Raise (Exception msg), s')
    end.

(** What a [while True:] loop has done after a number of iterations. *)
Inductive Loop : Type := Looping | Broken.

(** One iteration says whether the loop goes on ([true]) or hit [break]. *)
Fixpoint while_true (iterations : nat) (body : M bool) : M Loop :=
  match iterations with
  | O => ret Looping
  | S n => bind body (fun continue => if continue then while_true n body else ret Broken)
  end.

End Monad.

Notation "x <- m ;; k" := (bind m (fun x => k))
  (at level 61, m at next level, right associativity).
Notation "m ;;; k" := (bind m (fun _ => k))
  (at level 61, right associativity).

Section External.
Context `{RT : Runtime}.

(** A call that touches the world and nothing the process keeps. *)
Definition perform {A R : Type} (f : Env -> R * Env) (k : R -> res A) : M A :=
  fun s =>
    let '(r, e') := f (env s) in
    (k r, {| env := e'; trace := trace s |}).

(** A value that was computed, or the exception its computation raised. *)
Definition lift {A : Type} (r : res A) : M A := fun s => (r, s).

End External.

(** ** What the METAR parser yields

    The object built by [Metar.Metar(raw_text)], with each measurement
    already read in the unit the callers ask for; [None] is an attribute
    that is [None].  The modified variant asks for the unit of the report
    and the original for statute miles, knots and feet: one record stands
    for what both read only where the report is in those units. *)

Record SkyLayer : Type := {
  cover : string;
  height : option Z;
  cloud : option string
}.

Record ParsedMetar : Type := {
  temp : option Q;
  dewpt : option Q;
  wind_dir : option Q;
  wind_speed : option Q;
  vis : option Q;
  press : option Q;
  sky : list SkyLayer;
  weather : list string
}.

(** A key of a JSON object that holds text: it may be missing, or hold
    [null]. *)
Inductive JsonText : Type :=
| Missing
| Null
| Text (s : string).

(** [d.get(k, '').upper()]: the default stands in for a missing key only,
    and [None], what a [null] is read as, has no method [upper]. *)
Definition get_upper (x : JsonText) : res string :=
  match x with
  | Missing => Ret EmptyString
  | Null => Raise (Exception "'NoneType' object has no attribute 'upper'")
  | Text s => Ret (upper s)
  end.

(** One element of the JSON array the weather API answers with.  For
    [rawOb] and [obsTime], [None] is a key that is missing or [null]. *)
Record ApiEntry : Type := {
  icaoId : JsonText;
  rawOb : option string;
  obsTime : option Z
}.

Module Airport.
Record t : Type := {
  name : string;
  city : string;
  state : string;
  lat : Q;
  lon : Q
}.
End Airport.

Definition is_ceiling_coverage (c : string) : bool :=
  existsb (String.eqb c) ["BKN"; "OVC"]%string.

(** ** metar_lattice_integration.py *)

Module Original.

Module FlightConditions.

Definition determine_flight_conditions
    (visibility_miles : Q) (ceiling_feet : option Z) : string :=
  let ceiling_feet := match ceiling_feet with None => 10000 | Some c => c end in
  if (ceiling_feet <? 500) || Qltb visibility_miles 1 then "LIFR"
  else if (ceiling_feet <? 1000) || Qltb visibility_miles 3 then "IFR"
  else if (ceiling_feet <? 3000) || Qltb visibility_miles 5 then "MVFR"
  else "VFR".

End FlightConditions.

Record Observation : Type := {
  raw_text : string;
  parsed_time : option Z;
  temperature_c : option Q;
  dewpoint_c : option Q;
  wind_direction : option Q;
  wind_speed_kt : option Q;
  visibility_miles : option Q;
  ceiling_feet : option Z;
  pressure_mb : option Q;
  flight_condition : string;
  weather_conditions : option (list string);
  sky_conditions : list (string * option Z)
}.

(** The three shapes of dict [_process_metar_data] returns. *)
Inductive MetarInfo : Type :=
| Observed (o : Observation)
| Unparsed (raw_text : string) (parsed_time : option Z) (parse_error : string)
| Failed (error : string).

Record TafInfo : Type := { taf_raw_text : string }.

(** The loop over [metar_obj.sky] that stops at the first broken or
    overcast layer with a height. *)
Fixpoint ceiling_of_sky (sky : list SkyLayer) : option Z :=
  match sky with
  | [] => None
  | layer :: rest =>
      if is_ceiling_coverage (cover layer) then
        match height layer with
        | Some h => Some h
        | None => ceiling_of_sky rest
        end
      else ceiling_of_sky rest
  end.

(** The body of the inner [try] of [_process_metar_data], after the
    parser has returned [metar_obj].  The two rendered texts,
    [weather_conditions] and [sky_conditions], are kept as the values they
    are rendered from. *)
Definition observation_of (raw_text : string) (obsTime : option Z)
    (metar_obj : ParsedMetar) : Observation :=
  let visibility_miles := vis metar_obj in
  let ceiling_feet := ceiling_of_sky (sky metar_obj) in
  let flight_condition :=
    FlightConditions.determine_flight_conditions
      (float_or visibility_miles 10) ceiling_feet in
  {| raw_text := raw_text;
     parsed_time := obsTime;
     temperature_c := temp metar_obj;
     dewpoint_c := dewpt metar_obj;
     wind_direction := wind_dir metar_obj;
     wind_speed_kt := wind_speed metar_obj;
     visibility_miles := visibility_miles;
     ceiling_feet := ceiling_feet;
     pressure_mb := press metar_obj;
     flight_condition := flight_condition;
     weather_conditions :=
       match weather metar_obj with [] => None | wx => Some wx end;
     sky_conditions := map (fun l => (cover l, height l)) (sky metar_obj) |}.

Section Integration.
Context `{RT : Runtime}.

(** [Metar.Metar]: the parser returns an object or raises. *)
Variable Metar_Metar : string -> res ParsedMetar.

Definition _process_metar_data (metar_data : ApiEntry) : M MetarInfo :=
  let raw_text := match rawOb metar_data with Some r => r | None => ""%string end in
  match Metar_Metar raw_text with
  | Ret metar_obj => ret (Observed (observation_of raw_text (obsTime metar_data) metar_obj))
  | Raise (Exception parse_error) =>
      logger WARNING ("Failed to parse METAR: " ^^ parse_error) ;;;
      ret (Unparsed raw_text (obsTime metar_data) parse_error)
  | Raise KeyboardInterrupt => raise KeyboardInterrupt
  end.

(** The instance: its airport table, and the three methods that talk
    to the network, each of which may return or raise. *)
Variable airports : list (string * Airport.t).
Variable get_metar_data : list string -> M (list (string * MetarInfo)).
Variable get_taf_data : list string -> M (list (string * TafInfo)).
Variable publish_weather_entity :
  string -> Airport.t -> MetarInfo -> option TafInfo -> M bool.

(** [metar_info and not metar_info.get('error')] *)
Definition valid_metar (metar_info : option MetarInfo) : bool :=
  match metar_info with
  | None => false
  | Some (Failed error) => negb (truthy_str error)
  | Some _ => true
  end.

(** The [for icao in icao_codes:] loop of [run_integration]. *)
Fixpoint publish_all (metar_data : list (string * MetarInfo))
    (taf_data : list (string * TafInfo)) (successful_publishes : nat)
    (icao_codes : list string) : M nat :=
  match icao_codes with
  | [] => ret successful_publishes
  | icao :: rest =>
      match dict_get airports icao with
      | None => raise (Exception ("'" ^^ icao ^^ "'"))
      | Some airport_info =>
          let metar_info := dict_get metar_data icao in
          let taf_info := dict_get taf_data icao in
          if valid_metar metar_info then
            match metar_info with
            | Some info =>
                success <- publish_weather_entity icao airport_info info taf_info ;;
                publish_all metar_data taf_data
                  (if success then S successful_publishes else successful_publishes) rest
            | None => publish_all metar_data taf_data successful_publishes rest
            end
          else
            logger WARNING ("No valid METAR data for " ^^ icao) ;;;
            publish_all metar_data taf_data successful_publishes rest
      end
  end.

(** The body of the [try] in [run_integration]. *)
Definition cycle (update_interval_minutes : Z) : M unit :=
  let icao_codes := map fst airports in
  logger INFO "Retrieving METAR data..." ;;;
  metar_data <- get_metar_data icao_codes ;;
  logger INFO "Retrieving TAF data..." ;;;
  taf_data <- get_taf_data icao_codes ;;
  let total_airports := length icao_codes in
  successful_publishes <- publish_all metar_data taf_data 0%nat icao_codes ;;
  logger INFO ("Published " ^^ str_of_nat successful_publishes ^^ "/"
                ^^ str_of_nat total_airports ^^ " weather entities to Lattice") ;;;
  logger INFO ("Waiting " ^^ str_of_int update_interval_minutes
                ^^ " minutes until next update...") ;;;
  asyncio_sleep (update_interval_minutes * 60).

(** One turn of [while True:] with its two handlers; [false] is [break]. *)
Definition iteration (update_interval_minutes : Z) : M bool :=
  fun s =>
    match cycle update_interval_minutes s with
    | (Ret _, s') => (Ret true, s')
    | (Raise KeyboardInterrupt, s') =>
        (logger INFO "Integration stopped by user" ;;; ret false) s'
    | (Raise (Exception e), s') =>
        (logger ERROR ("Error in integration loop: " ^^ e) ;;;
         logger INFO "Retrying in 5 minutes..." ;;;
         asyncio_sleep 300 ;;;
         ret true) s'
    end.

Definition run_integration (update_interval_minutes : Z) (iterations : nat) : M Loop :=
  logger INFO ("Starting METAR to Lattice integration with "
                ^^ str_of_int update_interval_minutes ^^ "-minute updates") ;;;
  while_true iterations (iteration update_interval_minutes).

End Integration.

Module MetarApiClient.

(** What [session.get], [raise_for_status] and [response.json()] come to:
    the decoded array, a [requests.RequestException], another exception,
    or an interrupt. *)
Inductive Response : Type :=
| Answered (data : list ApiEntry)
| RequestException (msg : string)
| OtherException (msg : string)
| Interrupted.

Section Client.
Context `{RT : Runtime}.
Variable session_get : list string -> Env -> Response * Env.
Variable Metar_Metar : string -> res ParsedMetar.

(** The [for metar_data in data:] loop of [get_metar_data]. *)
Fixpoint collect (icao_codes : list string) (metar_dict : list (string * MetarInfo))
    (data : list ApiEntry) : M (list (string * MetarInfo)) :=
  match data with
  | [] => ret metar_dict
  | metar_data :: rest =>
      icao <- lift (get_upper (icaoId metar_data)) ;;
      if existsb (String.eqb icao) icao_codes then
        info <- _process_metar_data Metar_Metar metar_data ;;
        collect icao_codes (dict_set metar_dict icao info) rest
      else collect icao_codes metar_dict rest
  end.

Definition get_metar_data (icao_codes : list string) : M (list (string * MetarInfo)) :=
  logger INFO ("Requesting METAR data for " ^^ str_of_nat (length icao_codes)
                ^^ " airports") ;;;
  fun s =>
    let '(r, e') := session_get icao_codes (env s) in
    let s' := {| env := e'; trace := trace s |} in
    match r with
    | Answered data =>
        try_except
          (metar_dict <- collect icao_codes [] data ;;
           logger INFO ("Successfully retrieved METAR data for "
                         ^^ str_of_nat (length metar_dict) ^^ " airports") ;;;
           ret metar_dict)
          (fun e => logger ERROR ("Error processing METAR data: " ^^ e) ;;; ret [])
          s'
    | RequestException e =>
        (logger ERROR ("Failed to retrieve METAR data: " ^^ e) ;;; ret []) s'
    | OtherException e =>
        (logger ERROR ("Error processing METAR data: " ^^ e) ;;; ret []) s'
    | Interrupted => (Raise KeyboardInterrupt, s')
    end.

End Client.

End MetarApiClient.

End Original.

(** ** WIP-prompt 2/metar_lattice_integration_modified_2.py *)

Module Modified.

Module FlightConditions.

Definition determine_flight_conditions
    (visibility_miles : Q) (ceiling_feet : option Z) : string :=
  let ceiling_feet := match ceiling_feet with None => 10000 | Some c => c end in
  if (ceiling_feet <? 500) || Qltb visibility_miles 1 then "LIFR"
  else
    if (ceiling_feet <? 1000) || Qltb visibility_miles 3 then "IFR"
    else
      if (ceiling_feet <? 3000) || Qltb visibility_miles 5 then "MVFR"
      else "VFR".

Definition get_disposition_for_condition (flight_condition : string) : Disposition.t :=
  if String.eqb flight_condition "VFR" then Disposition.ASSUMED_FRIENDLY
  else if String.eqb flight_condition "MVFR" then Disposition.SUSPICIOUS
  else Disposition.HOSTILE.

End FlightConditions.

Record CloudLayer : Type := {
  coverage : string;
  altitude_ft : option Z;
  cloud_type : option string
}.

(** The dict [weather_data].  Every key is set when the dict is built;
    [flight_condition] is optional here because [create_weather_entity]
    reads it with a default, [None] standing for a dict without the key. *)
Record WeatherData : Type := {
  icao : string;
  raw_text : string;
  observation_time : option Z;
  temperature_c : option Q;
  dewpoint_c : option Q;
  wind_direction : option Q;
  wind_speed_kt : option Q;
  visibility_miles : option Q;
  pressure_hpa : option Q;
  cloud_layers : list CloudLayer;
  weather_phenomena : list string;
  ceiling_feet : option Z;
  flight_condition : option string
}.

(** A value of the dict [get_metar_data] returns: weather data, or the
    dict with the key ['error']. *)
Inductive StationData : Type :=
| Weather (w : WeatherData)
| ParseError (error : string) (raw_text : string).

Module MetarApiClient.

Definition _parse_cloud_layers (metar : ParsedMetar) : list CloudLayer :=
  map (fun layer =>
         {| coverage := cover layer;
            altitude_ft := height layer;
            cloud_type := cloud layer |})
      (sky metar).

Fixpoint _get_ceiling_feet (cloud_layers : list CloudLayer) : option Z :=
  match cloud_layers with
  | [] => None
  | layer :: rest =>
      if is_ceiling_coverage (coverage layer) && truthy_int (altitude_ft layer)
      then altitude_ft layer
      else _get_ceiling_feet rest
  end.

(** The body of the inner [try] of [get_metar_data], after the parser
    has returned [parsed_metar]. *)
Definition weather_data_of (icao raw_text : string) (obsTime : option Z)
    (parsed_metar : ParsedMetar) : WeatherData :=
  let cloud_layers := _parse_cloud_layers parsed_metar in
  let ceiling_feet := _get_ceiling_feet cloud_layers in
  let visibility_miles := float_or (vis parsed_metar) 10 in
  {| icao := icao;
     raw_text := raw_text;
     observation_time := obsTime;
     temperature_c := temp parsed_metar;
     dewpoint_c := dewpt parsed_metar;
     wind_direction := wind_dir parsed_metar;
     wind_speed_kt := wind_speed parsed_metar;
     visibility_miles := vis parsed_metar;
     pressure_hpa := press parsed_metar;
     cloud_layers := cloud_layers;
     weather_phenomena := weather parsed_metar;
     ceiling_feet := ceiling_feet;
     flight_condition :=
       Some (FlightConditions.determine_flight_conditions visibility_miles ceiling_feet) |}.

Section Client.
Context `{RT : Runtime}.

(** [session.get], [raise_for_status] and [response.json()]: the decoded
    array, or what was raised. *)
Variable session_get : list string -> Env -> res (list ApiEntry) * Env.
Variable Metar_Metar : string -> res ParsedMetar.

(** The inner [try] statement of [get_metar_data]. *)
Definition parse_entry (icao raw_text : string) (metar_entry : ApiEntry) : M StationData :=
  match Metar_Metar raw_text with
  | Ret parsed_metar =>
      ret (Weather (weather_data_of icao raw_text (obsTime metar_entry) parsed_metar))
  | Raise (Exception e) =>
      logger ERROR ("Error parsing METAR for " ^^ icao ^^ ": " ^^ e) ;;;
      ret (ParseError e raw_text)
  | Raise KeyboardInterrupt => raise KeyboardInterrupt
  end.

(** The [for metar_entry in data:] loop. *)
Fixpoint collect (results : list (string * StationData)) (data : list ApiEntry)
    : M (list (string * StationData)) :=
  match data with
  | [] => ret results
  | metar_entry :: rest =>
      icao <- lift (get_upper (icaoId metar_entry)) ;;
      let raw_text := get_str (rawOb metar_entry) in
      if negb (truthy_str icao) || negb (truthy_str raw_text) then collect results rest
      else
        value <- parse_entry icao raw_text metar_entry ;;
        collect (dict_set results icao value) rest
  end.

Definition get_metar_data (icao_codes : list string) : M (list (string * StationData)) :=
  try_except
    (data <- perform (session_get icao_codes) (fun r => r) ;;
     collect [] data)
    (fun e => logger ERROR ("Error fetching METAR data: " ^^ e) ;;; ret []).

End Client.

End MetarApiClient.

(** The fields of the instance. *)
Record LatticeWeatherIntegration : Type := {
  lattice_url : string;
  environment_token : string;
  sandboxes_token : option string;
  update_interval_minutes : Z;
  airports : list (string * Airport.t)
}.

Definition _get_health_status_for_condition (condition : string) : HealthStatus.t :=
  if String.eqb condition "VFR" then HealthStatus.HEALTHY
  else if String.eqb condition "MVFR" then HealthStatus.WARN
  else if String.eqb condition "IFR" then HealthStatus.FAIL
  else if String.eqb condition "LIFR" then HealthStatus.FAIL
  else HealthStatus.OFFLINE.

Definition _get_health_status_for_temperature (temp_c : Q) : HealthStatus.t :=
  if Qltb temp_c (-20) || Qltb 40 temp_c then HealthStatus.FAIL
  else if Qltb temp_c (-10) || Qltb 35 temp_c then HealthStatus.WARN
  else HealthStatus.HEALTHY.

Definition _get_health_status_for_wind (wind_kt : Q) : res HealthStatus.t :=
  if Qltb 30 wind_kt then HealthStatus_ERROR
  else if Qltb 15 wind_kt then Ret HealthStatus.WARN
  else Ret HealthStatus.HEALTHY.

Definition _get_health_status_for_visibility (visibility_miles : Q) : HealthStatus.t :=
  if Qltb visibility_miles 1 then HealthStatus.FAIL
  else if Qltb visibility_miles 5 then HealthStatus.WARN
  else HealthStatus.HEALTHY.

(** [weather.get('flight_condition', 'Unknown')] *)
Definition get_flight_condition (weather : WeatherData) : string :=
  match flight_condition weather with
  | Some fc => fc
  | None => "Unknown"
  end.

Section Integration.
Context `{RT : Runtime}.

(** The temperature component is built under [temperature_c is not
    None], where [temperature_f] is a number as well.  The status of the
    wind is the one step that can raise. *)
Definition create_weather_entity (icao : string) (airport : Airport.t)
    (weather : WeatherData) : M Entity :=
  time_now <- datetime_now ;;
  let expiry_time := time_now + 2 * 3600 in
  let flight_condition := get_flight_condition weather in
  let temperature_c := temperature_c weather in
  let temperature_f :=
    match temperature_c with
    | None => None
    | Some c => Some (c * 9 / 5 + 32)%Q
    end in
  let description := Airport.name airport ^^ " (" ^^ icao ^^ ") - " ^^ flight_condition in
  let disposition := FlightConditions.get_disposition_for_condition flight_condition in
  let health_components : list ComponentHealth := [] in
  let health_components :=
    if truthy_str flight_condition then
      let condition_status := _get_health_status_for_condition flight_condition in
      health_components ++
        [{| id := IdText (icao ^^ "_flight_condition");
            name := "Flight Condition";
            health := condition_status;
            messages := [{| message := CurrentFlightCondition flight_condition;
                            status := condition_status |}] |}]
    else health_components in
  let health_components :=
    match temperature_c, temperature_f with
    | Some temperature_c, Some temperature_f =>
        let temp_status := _get_health_status_for_temperature temperature_c in
        health_components ++
          [{| id := IdClassAttribute "Entity" "entity_id";
              name := "Temperature";
              health := temp_status;
              messages := [{| message := CurrentTemperature temperature_c temperature_f;
                              status := temp_status |}] |}]
    | _, _ => health_components
    end in
  let wind_speed := wind_speed_kt weather in
  health_components <-
    match wind_speed with
    | Some wind_speed =>
        wind_status <- lift (_get_health_status_for_wind wind_speed) ;;
        ret (health_components ++
               [{| id := IdClassAttribute "Entity" "entity_id";
                   name := "Wind Speed";
                   health := wind_status;
                   messages := [{| message := CurrentWindSpeed wind_speed;
                                   status := wind_status |}] |}])
    | None => ret health_components
    end ;;
  let visibility := visibility_miles weather in
  let health_components :=
    match visibility with
    | Some visibility =>
        let visibility_status := _get_health_status_for_visibility visibility in
        health_components ++
          [{| id := IdClassAttribute "Entity" "entity_id";
              name := "Visibility";
              health := visibility_status;
              messages := [{| message := CurrentVisibility visibility;
                              status := visibility_status |}] |}]
    | None => health_components
    end in
  let overall_health_status := _get_health_status_for_condition flight_condition in
  ret {| entity_id := "weather_" ^^ icao;
         description := description;
         created_time := time_now;
         expiry_time := expiry_time;
         is_live := true;
         aliases_name := Airport.name airport ^^ " (" ^^ icao ^^ ")";
         location_position :=
           {| latitude_degrees := Airport.lat airport;
              longitude_degrees := Airport.lon airport |};
         mil_view := {| disposition := disposition; environment := AIR |};
         ontology := {| template := SENSOR_POINT_OF_INTEREST; platform_type := "RADAR" |};
         entity_health :=
           {| health_status := overall_health_status;
              components := health_components |};
         provenance :=
           {| integration_name := "METAR-Weather-Integration";
              data_type := "aviation_weather";
              source_update_time := time_now |} |}.

Variable self : LatticeWeatherIntegration.

Definition publish_entity (entity : Entity) : M unit :=
  try_except
    (let metadata := [("authorization", "Bearer " ^^ environment_token self)]%string in
     let metadata :=
       if truthy_opt_str (sandboxes_token self) then
         match sandboxes_token self with
         | Some token =>
             metadata ++ [("anduril-sandbox-authorization", "Bearer " ^^ token)]%string
         | None => metadata
         end
       else metadata in
     stub_call entity metadata)
    (fun e =>
       logger ERROR ("Error publishing entity: " ^^ e) ;;;
       raise (Exception e)).

(** The body of the [try] inside the [for] loop; [true] when it
    reaches [count += 1], [false] when it leaves by [continue]. *)
Definition station_body (icao : string) (data : StationData) : M bool :=
  match data with
  | ParseError error _ =>
      logger WARNING ("Skipping " ^^ icao ^^ ": " ^^ error) ;;;
      ret false
  | Weather weather =>
      match dict_get (airports self) icao with
      | None =>
          logger WARNING ("Skipping unknown airport: " ^^ icao) ;;;
          ret false
      | Some airport =>
          entity <- create_weather_entity icao airport weather ;;
          publish_entity entity ;;;
          ret true
      end
  end.

(** The [try] statement of the loop, with its handler. *)
Definition publish_station (icao : string) (data : StationData) : M bool :=
  try_except (station_body icao data)
    (fun e =>
       logger ERROR ("Error publishing weather entity for " ^^ icao ^^ ": " ^^ e) ;;;
       ret false).

Fixpoint publish_from (count : nat) (metar_data : list (string * StationData)) : M nat :=
  match metar_data with
  | [] => ret count
  | (icao, data) :: rest =>
      published <- publish_station icao data ;;
      publish_from (if published then S count else count) rest
  end.

Definition publish_weather_entities (metar_data : list (string * StationData)) : M nat :=
  publish_from 0%nat metar_data.

(** The client of the weather API, which may return or raise. *)
Variable get_metar_data : list string -> M (list (string * StationData)).

(** The body of the [try] in [start]. *)
Definition cycle : M unit :=
  let all_icao_codes := map fst (airports self) in
  metar_data <- get_metar_data all_icao_codes ;;
  match metar_data with
  | _ :: _ =>
      logger INFO ("Successfully retrieved METAR data for "
                    ^^ str_of_nat (length metar_data) ^^ " airports") ;;;
      entities_published <- publish_weather_entities metar_data ;;
      logger INFO ("Published " ^^ str_of_nat entities_published ^^ "/"
                    ^^ str_of_nat (length (airports self))
                    ^^ " weather entities to Lattice")
  | [] => logger ERROR "Failed to retrieve any METAR data"
  end.

(** One turn of [while True:]; the loop has no [break]. *)
Definition iteration : M bool :=
  try_except cycle (fun e => logger ERROR ("Error in integration cycle: " ^^ e)) ;;;
  logger INFO ("Waiting " ^^ str_of_int (update_interval_minutes self)
                ^^ " minutes until next update...") ;;;
  asyncio_sleep (update_interval_minutes self * 60) ;;;
  ret true.

Definition start (iterations : nat) : M Loop :=
  logger INFO ("Starting METAR to Lattice integration with "
                ^^ str_of_int (update_interval_minutes self) ^^ "-minute updates") ;;;
  while_true iterations iteration.

End Integration.

Section Process.
Context `{RT : Runtime}.

(** [os.getenv], the airport table, and what the client is built on. *)
Variable getenv : string -> option string.
Variable get_airports : list (string * Airport.t).
Variable session_get : list string -> Env -> res (list ApiEntry) * Env.
Variable Metar_Metar : string -> res ParsedMetar.

Definition __init__ (lattice_url environment_token sandboxes_token : option string)
    (update_interval_minutes : Z) : M LatticeWeatherIntegration :=
  let lattice_url := str_or lattice_url (getenv "LATTICE_URL") in
  let environment_token := str_or environment_token (getenv "ENVIRONMENT_TOKEN") in
  let sandboxes_token := str_or sandboxes_token (getenv "SANDBOXES_TOKEN") in
  let airports := get_airports in
  if negb (truthy_opt_str lattice_url) || negb (truthy_opt_str environment_token) then
    logger ERROR ("Missing Lattice configuration. "
                   ^^ "Set LATTICE_URL and ENVIRONMENT_TOKEN environment variables.") ;;;
    raise (Exception "Missing Lattice configuration.")
  else
    logger INFO ("Initialized Lattice integration for "
                  ^^ str_of_nat (length airports) ^^ " airports") ;;;
    ret {| lattice_url := get_str lattice_url;
           environment_token := get_str environment_token;
           sandboxes_token := sandboxes_token;
           update_interval_minutes := update_interval_minutes;
           airports := airports |}.

(** How [main] ends: still in the loop after the given number of
    iterations, returned, or [sys.exit(code)]. *)
Inductive Outcome : Type := StillRunning | Returned | SysExit (code : Z).

Definition main (iterations : nat) : State -> Outcome * State :=
  fun s =>
    match (integration <- __init__ None None None 30 ;;
           start integration
             (MetarApiClient.get_metar_data session_get Metar_Metar) iterations) s with
    | (Ret Looping, s') => (StillRunning, s')
    | (Ret Broken, s') => (Returned, s')
    | (Raise KeyboardInterrupt, s') =>
        (Returned, snd (logger INFO "Integration stopped by user" s'))
    | (Raise (Exception e), s') =>
        (SysExit 1, snd (logger ERROR ("Integration error: " ^^ e) s'))
    end.

End Process.

End Modified.

(** ** Vocabulary of the statements *)

(** The ceiling the classifier works with: the sentinel when there is none. *)
Definition ceiling_or_sentinel (ceiling_feet : option Z) : Z :=
  match ceiling_feet with
  | None => 10000
  | Some c => c
  end.

(** The entity carries a component of the given name. *)
Definition has_component (e : Entity) (nm : string) : Prop :=
  exists c, In c (components (entity_health e)) /\ name c = nm.

(** [1] for a value that is there, [0] for [None]. *)
Definition present {A : Type} (x : option A) : nat :=
  match x with Some _ => 1%nat | None => 0%nat end.

(** The identifiers of the entities handed to the entity manager, in the
    order of the calls, and the number of calls it accepted. *)
Fixpoint attempted (t : list Event) : list string :=
  match t with
  | [] => []
  | Sent e _ _ :: t' => entity_id e :: attempted t'
  | _ :: t' => attempted t'
  end.

Fixpoint accepted (t : list Event) : nat :=
  match t with
  | [] => 0%nat
  | Sent _ _ None :: t' => S (accepted t')
  | _ :: t' => accepted t'
  end.

(** The stations of a batch that reach the publish call: weather data (no
    ['error'] key) for an airport of the table. *)
Definition publishable (airports : list (string * Airport.t))
    (station : string * Modified.StationData) : bool :=
  match snd station with
  | Modified.ParseError _ _ => false
  | Modified.Weather _ =>
      match dict_get airports (fst station) with
      | Some _ => true
      | None => false
      end
  end.

(** How bad a flight category is, from VFR up to LIFR; anything else ranks
    above them. *)
Definition severity (flight_condition : string) : nat :=
  if String.eqb flight_condition "VFR" then 0
  else if String.eqb flight_condition "MVFR" then 1
  else if String.eqb flight_condition "IFR" then 2
  else if String.eqb flight_condition "LIFR" then 3
  else 4.

(** How bad a health level is. *)
Definition band_rank (b : HealthBand) : nat :=
  match b with
  | BandHealthy => 0
  | BandWarn => 1
  | BandError => 2
  | BandOffline => 3
  end.

(** The string is one of the four flight categories. *)
Definition is_category (flight_condition : string) : Prop :=
  flight_condition = "VFR"%string \/ flight_condition = "MVFR"%string
  \/ flight_condition = "IFR"%string \/ flight_condition = "LIFR"%string.

(** The heights a report gives, in the order of its layers. *)
Definition reported_heights (sky : list SkyLayer) : list Z :=
  flat_map (fun l => match height l with Some h => [h] | None => [] end) sky.

(** A layer of the modified variant that counts for the ceiling. *)
Definition counts_for_ceiling (l : Modified.CloudLayer) : bool :=
  is_ceiling_coverage (Modified.coverage l) && truthy_int (Modified.altitude_ft l).

(** The lengths of the sleeps in a trace, oldest first. *)
Fixpoint sleeps (t : list Event) : list Z :=
  match t with
  | [] => []
  | Slept seconds :: t' => seconds :: sleeps t'
  | _ :: t' => sleeps t'
  end.

(** A stretch of trace that holds log records only. *)
Definition only_logs (t : list Event) : Prop :=
  Forall (fun ev => match ev with Logged _ _ => True | _ => False end) t.

(** What [get_metar_data] of the modified variant promises about its
    result: distinct keys, each a non-empty upper-case station code; under
    it either weather data of that station with a flight category, or a
    parse error with the raw text. *)
Definition well_keyed (results : list (string * Modified.StationData)) : Prop :=
  NoDup (map fst results)
  /\ Forall (fun station =>
               truthy_str (fst station) = true
               /\ upper (fst station) = fst station
               /\ match snd station with
                  | Modified.Weather w =>
                      Modified.icao w = fst station
                      /\ exists fc, Modified.flight_condition w = Some fc /\ is_category fc
                  | Modified.ParseError _ raw => truthy_str raw = true
                  end) results.

(** The entry is a report for station [k] that the modified client keeps. *)
Definition reports (k : string) (entry : ApiEntry) : bool :=
  match get_upper (icaoId entry) with
  | Ret icao => String.eqb icao k && truthy_str icao && truthy_str (get_str (rawOb entry))
  | Raise _ => false
  end.

(** What the modified client stores for an entry it keeps. *)
Definition stored (Metar_Metar : string -> res ParsedMetar) (entry : ApiEntry)
    : option Modified.StationData :=
  let raw_text := get_str (rawOb entry) in
  match get_upper (icaoId entry), Metar_Metar raw_text with
  | Ret icao, Ret parsed =>
      Some (Modified.Weather
              (Modified.MetarApiClient.weather_data_of icao raw_text (obsTime entry) parsed))
  | Ret _, Raise (Exception e) => Some (Modified.ParseError e raw_text)
  | _, _ => None
  end.

(** What [get_metar_data] of the original variant promises about its
    result: distinct keys, each one of the requested codes, each holding a
    dict that [run_integration] takes for valid METAR data. *)
Definition requested_and_valid (icao_codes : list string)
    (metar_dict : list (string * Original.MetarInfo)) : Prop :=
  NoDup (map fst metar_dict)
  /\ Forall (fun station =>
               In (fst station) icao_codes
               /\ Original.valid_metar (Some (snd station)) = true
               /\ match snd station with
                  | Original.Observed o => is_category (Original.flight_condition o)
                  | Original.Unparsed _ _ _ => True
                  | Original.Failed _ => False
                  end) metar_dict.

(** The configuration is incomplete: no URL or no token, neither given nor
    in the environment. *)
Definition configuration_missing (getenv : string -> option string) : Prop :=
  truthy_opt_str (getenv "LATTICE_URL"%string) = false
  \/ truthy_opt_str (getenv "ENVIRONMENT_TOKEN"%string) = false.

(** The synthesizer has a status for the wind of this station: no wind
    speed, or one of at most 30 knots. *)
Definition synthesizes (station : string * Modified.StationData) : bool :=
  match snd station with
  | Modified.ParseError _ _ => false
  | Modified.Weather w =>
      match Modified.wind_speed_kt w with
      | Some wind_speed => negb (Qltb 30 wind_speed)
      | None => true
      end
  end.

(** The names and identifiers of the components the synthesizer is to
    build for a station, in their order. *)
Definition expected_components (icao : string) (weather : Modified.WeatherData)
    : list (string * ComponentId) :=
  (if truthy_str (Modified.get_flight_condition weather)
   then [("Flight Condition"%string, IdText (icao ^^ "_flight_condition"))] else [])
  ++ match Modified.temperature_c weather with
     | Some _ => [("Temperature"%string, IdClassAttribute "Entity" "entity_id")]
     | None => []
     end
  ++ match Modified.wind_speed_kt weather with
     | Some _ => [("Wind Speed"%string, IdClassAttribute "Entity" "entity_id")]
     | None => []
     end
  ++ match Modified.visibility_miles weather with
     | Some _ => [("Visibility"%string, IdClassAttribute "Entity" "entity_id")]
     | None => []
     end.

(** The wind speed of the weather data is above 30 knots. *)
Definition wind_above_30 (weather : Modified.WeatherData) : Prop :=
  exists wind_speed,
    Modified.wind_speed_kt weather = Some wind_speed /\ (30 < wind_speed)%Q.

(** ** Sample data *)

Module Sample.

Definition KBOS : Airport.t :=
  {| Airport.name := "General Edward Lawrence Logan International Airport";
     Airport.city := "Boston";
     Airport.state := "MA";
     Airport.lat := 42.3656132;
     Airport.lon := -71.0095602 |}.

Definition KORH : Airport.t :=
  {| Airport.name := "Worcester Regional Airport";
     Airport.city := "Worcester";
     Airport.state := "MA";
     Airport.lat := 42.2673056;
     Airport.lon := -71.8757222 |}.

Definition airports : list (string * Airport.t) :=
  [("KBOS", KBOS); ("KORH", KORH)]%string.

(** A report with calm weather, and one with fog on the ground: zero
    visibility and no cloud layer reported. *)
Definition clear_day : ParsedMetar :=
  {| temp := Some 21%Q; dewpt := Some 12%Q; wind_dir := Some 270%Q;
     wind_speed := Some 8%Q; vis := Some 10%Q; press := Some 1015%Q;
     sky := [{| cover := "FEW"; height := Some 25000; cloud := None |}];
     weather := [] |}.

Definition zero_visibility : ParsedMetar :=
  {| temp := Some 3%Q; dewpt := Some 3%Q; wind_dir := None;
     wind_speed := Some 0%Q; vis := Some 0%Q; press := Some 1009%Q;
     sky := [];
     weather := ["FG"]%string |}.

(** An overcast layer on the ground under good visibility. *)
Definition overcast_at_ground : ParsedMetar :=
  {| temp := Some 3%Q; dewpt := Some 3%Q; wind_dir := None;
     wind_speed := Some 0%Q; vis := Some 10%Q; press := Some 1009%Q;
     sky := [{| cover := "OVC"; height := Some 0; cloud := None |}];
     weather := [] |}.

(** A gale under a clear sky. *)
Definition gale : ParsedMetar :=
  {| temp := Some 9%Q; dewpt := Some 2%Q; wind_dir := Some 300%Q;
     wind_speed := Some 35%Q; vis := Some 10%Q; press := Some 990%Q;
     sky := [];
     weather := [] |}.

(** A report with a scattered layer under two ceilings. *)
Definition layered : ParsedMetar :=
  {| temp := Some 12%Q; dewpt := Some 9%Q; wind_dir := Some 180%Q;
     wind_speed := Some 12%Q; vis := Some 6%Q; press := Some 1002%Q;
     sky := [{| cover := "SCT"; height := Some 900; cloud := None |};
             {| cover := "BKN"; height := Some 2500; cloud := None |};
             {| cover := "OVC"; height := Some 6000; cloud := None |}];
     weather := [] |}.

(** A parser that knows three raw texts. *)
Definition parser (raw_text : string) : res ParsedMetar :=
  if String.eqb raw_text "clear" then Ret clear_day
  else if String.eqb raw_text "fog" then Ret zero_visibility
  else if String.eqb raw_text "layered" then Ret layered
  else Raise (Exception "Unparsed groups").

(** An answer of the weather API: two reports for Boston, the later one
    last, a report that does not parse, and an entry without raw text. *)
Definition answer : list ApiEntry :=
  [{| icaoId := Text "kbos"; rawOb := Some "fog"; obsTime := Some 1 |};
   {| icaoId := Text "KORH"; rawOb := Some "garbage"; obsTime := Some 1 |};
   {| icaoId := Text "KBOS"; rawOb := Some "clear"; obsTime := Some 2 |};
   {| icaoId := Text "KBED"; rawOb := None; obsTime := Some 2 |}]%string.

(** A world whose state is the number of publish calls made so far; the
    entity manager refuses every call but the second. *)
Definition runtime : Runtime :=
  {| Env := nat;
     clock := fun n => 1750000000 + Z.of_nat n;
     elapse := fun _ n => n;
     stub_publish_entity := fun _ _ n =>
       (if Nat.eqb n 1 then None else Some "unavailable"%string, S n) |}.

Definition boot : @State runtime := @Build_State runtime 0%nat [].

(** The weather API of the sample world answers every request alike. *)
Definition session
    : list string -> @Env runtime -> res (list ApiEntry) * @Env runtime :=
  fun _ n => (Ret answer, n).

Definition original_session
    : list string -> @Env runtime -> Original.MetarApiClient.Response * @Env runtime :=
  fun _ n => (Original.MetarApiClient.Answered answer, n).

Definition integration (minutes : Z) : Modified.LatticeWeatherIntegration :=
  {| Modified.lattice_url := "lattice.example";
     Modified.environment_token := "token";
     Modified.sandboxes_token := None;
     Modified.update_interval_minutes := minutes;
     Modified.airports := airports |}.

(** An environment with the two required variables, and an empty one. *)
Definition environ (var : string) : option string :=
  if String.eqb var "LATTICE_URL" then Some "lattice.example"%string
  else if String.eqb var "ENVIRONMENT_TOKEN" then Some "token"%string
  else None.

Definition no_environ (var : string) : option string := None.

(** Clients whose request fails with an exception. *)
Definition failing_client {A : Type} : list string -> @M runtime A :=
  fun _ => raise (Exception "connection reset").

(** A client interrupted from the keyboard during its request. *)
Definition interrupted_client {A : Type} : list string -> @M runtime A :=
  fun _ => raise KeyboardInterrupt.

Definition no_publish : string -> Airport.t -> Original.MetarInfo ->
    option Original.TafInfo -> @M runtime bool :=
  fun _ _ _ _ => ret true.

End Sample.

(** * Properties *)

(** ** Comparisons *)

Lemma Qltb_spec (x y : Q) : reflect (x < y)%Q (Qltb x y).
Proof.
  unfold Qltb. destruct (x ?= y)%Q eqn:E.
  - constructor. rewrite Qlt_alt. congruence.
  - constructor. now rewrite Qlt_alt.
  - constructor. rewrite Qlt_alt. congruence.
Qed.

Lemma eqb_string_spec (a b : string) : reflect (a = b) (String.eqb a b).
Proof. apply String.eqb_spec. Qed.

Lemma or_spec (P R : Prop) (b1 b2 : bool) :
  reflect P b1 -> reflect R b2 -> reflect (P \/ R) (b1 || b2).
Proof. intros [p|p] [r|r]; constructor; tauto. Qed.

(** Decide the test of the outermost [if] of the goal, keeping the
    disjunction of a Python [or] as one fact. *)
#[local] Ltac decide_test :=
  match goal with
  | |- context [if (Z.ltb ?a ?b) || (Qltb ?x ?y) then _ else _] =>
      destruct (or_spec _ _ _ _ (Z.ltb_spec0 a b) (Qltb_spec x y))
  | |- context [if (Qltb ?a ?b) || (Qltb ?x ?y) then _ else _] =>
      destruct (or_spec _ _ _ _ (Qltb_spec a b) (Qltb_spec x y))
  | |- context [if Qltb ?x ?y then _ else _] => destruct (Qltb_spec x y)
  | |- context [if String.eqb ?x ?y then _ else _] => destruct (eqb_string_spec x y)
  end.

#[local] Ltac settle := cbn; intuition (try discriminate; try congruence).

(** ** The classifier *)

Lemma determine_flight_conditions_same (v : Q) (c : option Z) :
  Original.FlightConditions.determine_flight_conditions v c
  = Modified.FlightConditions.determine_flight_conditions v c.
Proof. reflexivity. Qed.

Lemma flight_category_bands (v : Q) (c : option Z) :
  let fc := Modified.FlightConditions.determine_flight_conditions v c in
  let ceiling := ceiling_or_sentinel c in
  let lifr := ceiling < 500 \/ (v < 1)%Q in
  let ifr := ceiling < 1000 \/ (v < 3)%Q in
  let mvfr := ceiling < 3000 \/ (v < 5)%Q in
  (fc = "LIFR"%string <-> lifr)
  /\ (fc = "IFR"%string <-> ~ lifr /\ ifr)
  /\ (fc = "MVFR"%string <-> ~ lifr /\ ~ ifr /\ mvfr)
  /\ (fc = "VFR"%string <-> ~ lifr /\ ~ ifr /\ ~ mvfr).
Proof.
  cbv zeta. unfold Modified.FlightConditions.determine_flight_conditions.
  fold (ceiling_or_sentinel c). generalize (ceiling_or_sentinel c). intro z.
  repeat decide_test; settle.
Qed.

(** C1. For every visibility [v] and every ceiling [c] (absent: 10000),
    [determine_flight_conditions] answers LIFR exactly when [c < 500] or
    [v < 1]; otherwise IFR exactly when [c < 1000] or [v < 3]; otherwise
    MVFR exactly when [c < 3000] or [v < 5]; otherwise VFR.  The tests are
    strict: visibility 1.0 under a ceiling of 500 is IFR.  Both variants
    of the function agree. *)
Theorem C1_flight_category_thresholds (v : Q) (c : option Z) :
  let fc := Modified.FlightConditions.determine_flight_conditions v c in
  let ceiling := ceiling_or_sentinel c in
  let lifr := ceiling < 500 \/ (v < 1)%Q in
  let ifr := ceiling < 1000 \/ (v < 3)%Q in
  let mvfr := ceiling < 3000 \/ (v < 5)%Q in
  Original.FlightConditions.determine_flight_conditions v c = fc
  /\ (fc = "LIFR"%string <-> lifr)
  /\ (fc = "IFR"%string <-> ~ lifr /\ ifr)
  /\ (fc = "MVFR"%string <-> ~ lifr /\ ~ ifr /\ mvfr)
  /\ (fc = "VFR"%string <-> ~ lifr /\ ~ ifr /\ ~ mvfr)
  /\ Modified.FlightConditions.determine_flight_conditions 1 (Some 500) = "IFR"%string.
Proof.
  cbv zeta. pose proof (flight_category_bands v c) as H. cbv zeta in H.
  split; [apply determine_flight_conditions_same|].
  repeat (split; [apply H|]). reflexivity.
Qed.

(** The cases of [test_flight_conditions], and a report without ceiling. *)
Example test_flight_conditions :
  Original.FlightConditions.determine_flight_conditions 10 (Some 5000) = "VFR"%string
  /\ Original.FlightConditions.determine_flight_conditions 4 (Some 2000) = "MVFR"%string
  /\ Original.FlightConditions.determine_flight_conditions 2 (Some 800) = "IFR"%string
  /\ Original.FlightConditions.determine_flight_conditions 0.5 (Some 300) = "LIFR"%string
  /\ Original.FlightConditions.determine_flight_conditions 3 None = "MVFR"%string.
Proof. repeat split; reflexivity. Qed.

(** ** The disposition mapping *)

Lemma get_disposition_cases (fc : string) :
  (fc = "VFR"%string
   /\ Modified.FlightConditions.get_disposition_for_condition fc = Disposition.ASSUMED_FRIENDLY)
  \/ (fc = "MVFR"%string
      /\ Modified.FlightConditions.get_disposition_for_condition fc = Disposition.SUSPICIOUS)
  \/ (fc <> "VFR"%string /\ fc <> "MVFR"%string
      /\ Modified.FlightConditions.get_disposition_for_condition fc = Disposition.HOSTILE).
Proof.
  unfold Modified.FlightConditions.get_disposition_for_condition.
  repeat decide_test; subst; intuition congruence.
Qed.

(** ** The health evaluators *)

(** C3, evaluated.  Temperature and visibility have the bands of the
    claim: ERROR (here [FAIL]) when [t < -20] or [t > 40], WARN when
    [t < -10] or [t > 35] and not ERROR, else HEALTHY; ERROR when [v < 1],
    WARN when [v < 5] and not ERROR, else HEALTHY.  The wind evaluator
    answers WARN above 15 and up to 30 knots and HEALTHY up to 15; above
    30 knots it has no band: it raises, at 35 knots for one. *)
Theorem C3_wind_above_30_has_no_band :
  (forall t : Q,
      let temperature := band (Modified._get_health_status_for_temperature t) in
      (temperature = BandError <-> (t < -20 \/ 40 < t)%Q)
      /\ (temperature = BandWarn <-> (t < -10 \/ 35 < t)%Q /\ ~ (t < -20 \/ 40 < t)%Q)
      /\ (temperature = BandHealthy
          <-> ~ (t < -10 \/ 35 < t)%Q /\ ~ (t < -20 \/ 40 < t)%Q))
  /\ (forall v : Q,
        let visibility := band (Modified._get_health_status_for_visibility v) in
        (visibility = BandError <-> (v < 1)%Q)
        /\ (visibility = BandWarn <-> (v < 5)%Q /\ ~ (v < 1)%Q)
        /\ (visibility = BandHealthy <-> ~ (v < 5)%Q /\ ~ (v < 1)%Q))
  /\ (forall w : Q,
        let wind := Modified._get_health_status_for_wind w in
        (wind = Raise (Exception "ERROR") <-> (30 < w)%Q)
        /\ (wind = Ret HealthStatus.WARN <-> (15 < w)%Q /\ ~ (30 < w)%Q)
        /\ (wind = Ret HealthStatus.HEALTHY <-> ~ (15 < w)%Q /\ ~ (30 < w)%Q)
        /\ wind <> Ret HealthStatus.FAIL)
  /\ Modified._get_health_status_for_wind 35 = Raise (Exception "ERROR").
Proof.
  unfold Modified._get_health_status_for_temperature,
    Modified._get_health_status_for_wind, Modified._get_health_status_for_visibility,
    HealthStatus_ERROR.
  split; [|split; [|split; [|reflexivity]]]; intro x; cbv zeta;
    repeat decide_test; settle.
Qed.

(** C4, as the code has it.  At the temperature boundaries the strict
    tests put the value in the milder band as well: exactly -20 and exactly
    40 are WARN, exactly -10 and exactly 35 are HEALTHY; wind 30 is WARN and
    wind 15 HEALTHY; visibility 1 is WARN and visibility 5 HEALTHY. *)
Theorem C4_boundaries_fall_in_milder_band :
  band (Modified._get_health_status_for_temperature (-20)) = BandWarn
  /\ band (Modified._get_health_status_for_temperature 40) = BandWarn
  /\ band (Modified._get_health_status_for_temperature (-10)) = BandHealthy
  /\ band (Modified._get_health_status_for_temperature 35) = BandHealthy
  /\ Modified._get_health_status_for_wind 30 = Ret HealthStatus.WARN
  /\ Modified._get_health_status_for_wind 15 = Ret HealthStatus.HEALTHY
  /\ band (Modified._get_health_status_for_visibility 1) = BandWarn
  /\ band (Modified._get_health_status_for_visibility 5) = BandHealthy.
Proof. repeat split; reflexivity. Qed.

(** C4, as stated, fails at temperature -20: the evaluator answers WARN
    where the claim expects ERROR. *)
Lemma C4_temperature_minus_20_is_not_error :
  Modified._get_health_status_for_temperature (-20) = HealthStatus.WARN
  /\ band (Modified._get_health_status_for_temperature (-20)) <> BandError.
Proof. split; [reflexivity | discriminate]. Qed.

(** ** Absent values before classification *)

Lemma float_or_absent (d : Q) : float_or None d = d.
Proof. reflexivity. Qed.

Lemma float_or_nonzero (q d : Q) : ~ (q == 0)%Q -> float_or (Some q) d = q.
Proof.
  intro H. unfold float_or, truthy_float.
  destruct (Qeq_bool q 0) eqn:E; [|reflexivity].
  apply Qeq_bool_iff in E. contradiction.
Qed.

Lemma float_or_zero (q d : Q) : (q == 0)%Q -> float_or (Some q) d = d.
Proof.
  intro H. unfold float_or, truthy_float.
  apply Qeq_bool_iff in H. now rewrite H.
Qed.

(** What the weather data is classified from: the value of a visibility
    that is present and not zero, and 10.0 for one that is absent or zero. *)
Lemma classified_visibility (icao raw : string) (obs : option Z) (p : ParsedMetar) :
  let ceiling := Modified.MetarApiClient._get_ceiling_feet
                   (Modified.MetarApiClient._parse_cloud_layers p) in
  let classify v := Some (Modified.FlightConditions.determine_flight_conditions v ceiling) in
  let fc := Modified.flight_condition
              (Modified.MetarApiClient.weather_data_of icao raw obs p) in
  match vis p with
  | None => fc = classify 10%Q
  | Some q => (~ (q == 0)%Q -> fc = classify q) /\ ((q == 0)%Q -> fc = classify 10%Q)
  end.
Proof.
  cbv zeta. unfold Modified.MetarApiClient.weather_data_of. cbn [Modified.flight_condition].
  destruct (vis p) as [q|]; [split; intro H|].
  - now rewrite float_or_nonzero.
  - now rewrite float_or_zero.
  - reflexivity.
Qed.

(** C5, evaluated.  A report with a visibility of 0.0 and no cloud layer
    keeps its visibility of 0.0 in the weather data, and both variants
    classify it VFR, as the default 10.0 would be; the classifier applied
    to the visibility itself answers LIFR.  In the modified variant an
    overcast layer at 0 feet is likewise taken for no ceiling. *)
Theorem C5_zero_visibility_replaced_by_default :
  let w := Modified.MetarApiClient.weather_data_of "KORH" "KORH 0SM FG" None
             Sample.zero_visibility in
  let o := Original.observation_of "KORH 0SM FG" None Sample.zero_visibility in
  Modified.visibility_miles w = Some 0%Q
  /\ Modified.ceiling_feet w = None
  /\ Modified.flight_condition w = Some "VFR"%string
  /\ Original.visibility_miles o = Some 0%Q
  /\ Original.flight_condition o = "VFR"%string
  /\ Modified.FlightConditions.determine_flight_conditions 0 None = "LIFR"%string
  /\ Modified.flight_condition
       (Modified.MetarApiClient.weather_data_of "KORH" "KORH OVC000" None
          Sample.overcast_at_ground) = Some "VFR"%string
  /\ Original.flight_condition
       (Original.observation_of "KORH OVC000" None Sample.overcast_at_ground)
     = "LIFR"%string.
Proof. cbv zeta. repeat split; reflexivity. Qed.

(** ** The synthesized entity *)

(** Run the synthesizer on a weather record given by its fields, with the
    test of the wind decided. *)
#[local] Ltac synthesize weather :=
  unfold Modified.create_weather_entity, bind, lift, datetime_now, ret,
    Modified._get_health_status_for_wind, HealthStatus_ERROR, wind_above_30;
  destruct weather as [? ? ? [t|] ? ? [w|] [v|] ? ? ? ? fc];
  cbn [Modified.temperature_c Modified.wind_speed_kt Modified.visibility_miles];
  try (destruct (Qltb_spec 30 w); [|destruct (Qltb 15 w)]);
  cbv beta iota.

#[local] Ltac gale := eexists; split; [reflexivity | assumption].

Section Synthesis.
Context `{RT : Runtime}.

#[local] Abbreviation get_disposition :=
  Modified.FlightConditions.get_disposition_for_condition.

Lemma has_component_existsb (e : Entity) (nm : string) :
  has_component e nm
  <-> existsb (fun c => String.eqb (name c) nm) (components (entity_health e)) = true.
Proof.
  unfold has_component. rewrite existsb_exists.
  split; intros (c & Hin & Hc); exists c; split; auto; now apply String.eqb_eq.
Qed.

(** The synthesizer raises exactly on a wind above 30 knots, and leaves
    the state as it found it either way. *)
Lemma create_weather_entity_cases icao airport weather s :
  match Modified.create_weather_entity icao airport weather s with
  | (Ret e, s') =>
      s' = s /\ entity_id e = "weather_" ^^ icao
      /\ synthesizes (icao, Modified.Weather weather) = true
  | (Raise ex, s') =>
      s' = s /\ ex = Exception "ERROR"
      /\ synthesizes (icao, Modified.Weather weather) = false
  end.
Proof.
  unfold synthesizes. cbn [snd].
  synthesize weather; repeat split; try reflexivity;
    destruct (Qltb_spec 30 w); try reflexivity; contradiction.
Qed.

Lemma wind_above_30_synthesizes icao weather :
  wind_above_30 weather <-> synthesizes (icao, Modified.Weather weather) = false.
Proof.
  unfold wind_above_30, synthesizes. cbn [snd].
  destruct (Modified.wind_speed_kt weather) as [w|].
  - destruct (Qltb_spec 30 w) as [Hw|Hw]; cbn; split.
    + reflexivity.
    + intros _. eauto.
    + intros (w' & E & H). injection E as <-. contradiction.
    + discriminate.
  - split.
    + intros (w' & E & _). discriminate.
    + discriminate.
Qed.

(** C2. The mapping is total: VFR gives ASSUMED_FRIENDLY, MVFR gives
    SUSPICIOUS, every other value (IFR, LIFR, 'Unknown', ...) gives
    HOSTILE; and the disposition of the entity the synthesizer returns is
    the mapping applied to the flight category the entity is described
    with.  The synthesizer returns no entity only on a wind above 30
    knots. *)
Theorem C2_disposition_is_total_and_derived :
  (forall fc, get_disposition fc = Disposition.ASSUMED_FRIENDLY <-> fc = "VFR"%string)
  /\ (forall fc, get_disposition fc = Disposition.SUSPICIOUS <-> fc = "MVFR"%string)
  /\ (forall fc, get_disposition fc = Disposition.HOSTILE
                 <-> fc <> "VFR"%string /\ fc <> "MVFR"%string)
  /\ get_disposition "IFR" = Disposition.HOSTILE
  /\ get_disposition "LIFR" = Disposition.HOSTILE
  /\ get_disposition "Unknown" = Disposition.HOSTILE
  /\ forall icao airport weather s,
       match Modified.create_weather_entity icao airport weather s with
       | (Ret e, _) =>
           description e
           = Airport.name airport ^^ " (" ^^ icao ^^ ") - "
               ^^ Modified.get_flight_condition weather
           /\ disposition (mil_view e)
              = get_disposition (Modified.get_flight_condition weather)
       | (Raise _, _) => wind_above_30 weather
       end.
Proof.
  repeat match goal with |- _ /\ _ => split end; try reflexivity.
  - intro fc. destruct (get_disposition_cases fc) as [[E H]|[[E H]|(E1 & E2 & H)]];
      rewrite H; subst; intuition (try discriminate; try congruence).
  - intro fc. destruct (get_disposition_cases fc) as [[E H]|[[E H]|(E1 & E2 & H)]];
      rewrite H; subst; intuition (try discriminate; try congruence).
  - intro fc. destruct (get_disposition_cases fc) as [[E H]|[[E H]|(E1 & E2 & H)]];
      rewrite H; subst; intuition (try discriminate; try congruence).
  - intros icao airport wd s. synthesize wd; try gale; split; reflexivity.
Qed.

Lemma condition_health_cases (fc : string) :
  let h := Modified._get_health_status_for_condition fc in
  (fc = "VFR"%string /\ h = HealthStatus.HEALTHY)
  \/ (fc = "MVFR"%string /\ h = HealthStatus.WARN)
  \/ (fc = "IFR"%string /\ h = HealthStatus.FAIL)
  \/ (fc = "LIFR"%string /\ h = HealthStatus.FAIL)
  \/ (fc <> "VFR"%string /\ fc <> "MVFR"%string /\ fc <> "IFR"%string
      /\ fc <> "LIFR"%string /\ h = HealthStatus.OFFLINE).
Proof.
  cbv zeta. unfold Modified._get_health_status_for_condition.
  repeat decide_test; subst; intuition congruence.
Qed.

Lemma condition_health_bands (fc : string) :
  let overall := Modified._get_health_status_for_condition fc in
  (band overall = BandHealthy <-> fc = "VFR"%string)
  /\ (band overall = BandWarn <-> fc = "MVFR"%string)
  /\ (band overall = BandError <-> fc = "IFR"%string \/ fc = "LIFR"%string)
  /\ (band overall = BandOffline
      <-> fc <> "VFR"%string /\ fc <> "MVFR"%string
          /\ fc <> "IFR"%string /\ fc <> "LIFR"%string).
Proof.
  pose proof (condition_health_cases fc) as H. cbv zeta in *.
  destruct H as [[E H]|[[E H]|[[E H]|[[E H]|(E1 & E2 & E3 & E4 & H)]]]];
    rewrite H; rewrite ?E; cbn;
    intuition (try discriminate; try congruence).
Qed.

(** C6. The overall health of the entity the synthesizer returns is the
    category health of its flight category: HEALTHY for VFR, WARN for MVFR,
    ERROR for IFR and LIFR, OFFLINE for anything else; the flight-condition
    component, which is there for every category but the empty string,
    carries the same status.  The synthesizer returns no entity only on a
    wind above 30 knots. *)
Theorem C6_overall_health_is_category_health icao airport weather s :
  match Modified.create_weather_entity icao airport weather s with
  | (Ret e, _) =>
      let fc := Modified.get_flight_condition weather in
      let overall := health_status (entity_health e) in
      overall = Modified._get_health_status_for_condition fc
      /\ Forall (fun c => name c = "Flight Condition"%string -> health c = overall)
           (components (entity_health e))
      /\ (truthy_str fc = true ->
          exists c, In c (components (entity_health e))
                    /\ name c = "Flight Condition"%string /\ health c = overall)
      /\ (band overall = BandHealthy <-> fc = "VFR"%string)
      /\ (band overall = BandWarn <-> fc = "MVFR"%string)
      /\ (band overall = BandError <-> fc = "IFR"%string \/ fc = "LIFR"%string)
      /\ (band overall = BandOffline
          <-> fc <> "VFR"%string /\ fc <> "MVFR"%string
              /\ fc <> "IFR"%string /\ fc <> "LIFR"%string)
  | (Raise _, _) => wind_above_30 weather
  end.
Proof.
  synthesize weather; try gale; cbv zeta;
    cbn [entity_health health_status components];
    (split; [reflexivity|]);
    (split; [| split; [| apply condition_health_bands]]);
    destruct (truthy_str _); cbn;
    try (repeat constructor; cbn; intros; try discriminate; reflexivity);
    try discriminate;
    intros _; eexists; (split; [left; reflexivity|]); split; reflexivity.
Qed.

(** C7, evaluated.  The entity the synthesizer returns has a temperature,
    a wind-speed and a visibility component exactly when the corresponding
    value is not [None], one component per present value after the
    flight-condition component, so at most four; and a value that is
    absent raises nothing.  A wind speed that is present and above 30
    knots makes the synthesizer raise: there is no entity for a gale of 35
    knots. *)
Theorem C7_no_entity_for_a_wind_above_30 :
  (forall icao airport weather s,
      match Modified.create_weather_entity icao airport weather s with
      | (Ret e, _) =>
          (has_component e "Temperature" <-> Modified.temperature_c weather <> None)
          /\ (has_component e "Wind Speed" <-> Modified.wind_speed_kt weather <> None)
          /\ (has_component e "Visibility" <-> Modified.visibility_miles weather <> None)
          /\ length (components (entity_health e))
             = ((if truthy_str (Modified.get_flight_condition weather) then 1 else 0)
                + present (Modified.temperature_c weather)
                + present (Modified.wind_speed_kt weather)
                + present (Modified.visibility_miles weather))%nat
          /\ (length (components (entity_health e)) <= 4)%nat
      | (Raise _, _) => wind_above_30 weather
      end)
  /\ (forall icao airport weather s,
        Modified.wind_speed_kt weather = None ->
        exists e, Modified.create_weather_entity icao airport weather s = (Ret e, s))
  /\ (forall s,
        Modified.wind_speed_kt
          (Modified.MetarApiClient.weather_data_of "KBOS" "gale" None Sample.gale)
        = Some 35%Q
        /\ Modified.create_weather_entity "KBOS" Sample.KBOS
             (Modified.MetarApiClient.weather_data_of "KBOS" "gale" None Sample.gale) s
           = (Raise (Exception "ERROR"), s)).
Proof.
  split; [|split].
  - intros icao airport wd s. synthesize wd; try gale;
      rewrite !has_component_existsb; cbn; destruct (truthy_str _); cbn;
      repeat split; intros; try discriminate; try congruence; try lia.
  - intros icao airport weather s Hw.
    pose proof (create_weather_entity_cases icao airport weather s) as H.
    destruct (Modified.create_weather_entity icao airport weather s) as [[e|ex] s'].
    + destruct H as (-> & _). eauto.
    + destruct H as (_ & _ & H). unfold synthesizes in H. cbn [snd] in H.
      rewrite Hw in H. discriminate.
  - intro s. split; reflexivity.
Qed.

(** C10. In the entity the synthesizer returns, the components are, in
    this order and for the values that are there, the flight condition
    with an identifier built from the station code, and the temperature,
    the wind speed and the visibility, each with the class attribute
    [Entity.entity_id] for identifier, whatever the station.  The
    synthesizer returns no entity only on a wind above 30 knots. *)
Theorem C10_parameter_components_share_one_id icao airport weather s :
  match Modified.create_weather_entity icao airport weather s with
  | (Ret e, _) =>
      map (fun c => (name c, id c)) (components (entity_health e))
      = expected_components icao weather
  | (Raise _, _) => wind_above_30 weather
  end.
Proof.
  unfold expected_components.
  synthesize weather; try gale;
    cbn [entity_health components Modified.temperature_c Modified.wind_speed_kt
         Modified.visibility_miles];
    destruct (truthy_str _); reflexivity.
Qed.

End Synthesis.

(** A hot day in visual conditions: the temperature component fails while
    the overall health, taken from the flight category alone, is healthy. *)
Example overall_health_ignores_the_parameters :
  let weather :=
    {| Modified.icao := "KBOS"; Modified.raw_text := "";
       Modified.observation_time := None;
       Modified.temperature_c := Some 45%Q; Modified.dewpoint_c := None;
       Modified.wind_direction := None; Modified.wind_speed_kt := None;
       Modified.visibility_miles := Some 10%Q; Modified.pressure_hpa := None;
       Modified.cloud_layers := []; Modified.weather_phenomena := [];
       Modified.ceiling_feet := None;
       Modified.flight_condition := Some "VFR"%string |} in
  exists e,
    Modified.create_weather_entity "KBOS" Sample.KBOS weather Sample.boot = (Ret e, Sample.boot)
    /\ health_status (entity_health e) = HealthStatus.HEALTHY
    /\ map health (components (entity_health e))
       = [HealthStatus.HEALTHY; HealthStatus.FAIL; HealthStatus.HEALTHY].
Proof. cbv zeta. eexists. split; [reflexivity|]. split; reflexivity. Qed.

(** ** Publishing a batch *)

Lemma attempted_app (t u : list Event) : attempted (t ++ u) = attempted t ++ attempted u.
Proof.
  induction t as [|[| |e md r] t IH]; cbn; auto. now rewrite IH.
Qed.

Lemma accepted_app (t u : list Event) : accepted (t ++ u) = (accepted t + accepted u)%nat.
Proof.
  induction t as [|[| |e md [msg|]] t IH]; cbn; auto.
Qed.

Section Publishing.
Context `{RT : Runtime}.
Variable self : Modified.LatticeWeatherIntegration.

Lemma bind_assoc {A B C} (m : M A) (f : A -> M B) (g : B -> M C) (s : State) :
  (b <- (a <- m ;; f a) ;; g b) s = (a <- m ;; b <- f a ;; g b) s.
Proof. unfold bind. destruct (m s) as [[a|e] s1]; reflexivity. Qed.

Lemma bind_ext {A B} (m : M A) (f g : A -> M B) (s : State) :
  (forall a s1, f a s1 = g a s1) -> (a <- m ;; f a) s = (a <- m ;; g a) s.
Proof. intro H. unfold bind. destruct (m s) as [[a|e] s1]; auto. Qed.

(** One station: the [try] statement returns, whatever the synthesizer and
    the entity manager do; it calls the manager once when the station is
    publishable and synthesized, and not at all otherwise; it says [true]
    exactly when the call was accepted, and [false] whenever the body
    raised. *)
Lemma publish_station_returns (icao : string) (data : Modified.StationData) (s : State) :
  exists published new s',
    Modified.publish_station self icao data s = (Ret published, s')
    /\ trace s' = trace s ++ new
    /\ accepted new = (if published then 1 else 0)%nat
    /\ attempted new
       = (if publishable (Modified.airports self) (icao, data) && synthesizes (icao, data)
          then ["weather_" ^^ icao] else [])
    /\ (published = true
        <-> exists s1, Modified.station_body self icao data s = (Ret true, s1)).
Proof.
  unfold Modified.publish_station, publishable, try_except.
  destruct (Modified.station_body self icao data s) as [r s0] eqn:Hbody.
  revert Hbody. unfold Modified.station_body. cbn [fst snd].
  destruct data as [weather|error raw].
  - destruct (dict_get (Modified.airports self) icao) as [airport|].
    + unfold bind at 1.
      pose proof (create_weather_entity_cases icao airport weather s) as Hc.
      destruct (Modified.create_weather_entity icao airport weather s) as [[e|ex] s1].
      * destruct Hc as (-> & Hid & ->).
        unfold bind, Modified.publish_entity, try_except, stub_call.
        destruct (stub_publish_entity e _ (env s)) as [[msg|] env'] eqn:Hstub.
        -- cbn. intro H. injection H as <- <-. eexists _, _, _.
           split; [reflexivity|]. cbn. rewrite <- !app_assoc.
           split; [reflexivity|]. cbn. rewrite Hid.
           repeat split; try reflexivity; try discriminate.
           intros (s1 & H). discriminate.
        -- cbn. intro H. injection H as <- <-. eexists _, _, _.
           split; [reflexivity|]. cbn. split; [reflexivity|]. cbn. rewrite Hid.
           repeat split; try reflexivity. eauto.
      * destruct Hc as (-> & -> & ->). intro H. injection H as <- <-.
        eexists _, _, _. split; [reflexivity|]. cbn.
        repeat split; try reflexivity; try discriminate.
        intros (s1 & H). discriminate.
    + cbn. intro H. injection H as <- <-. eexists _, _, _.
      repeat split; try reflexivity; try discriminate.
      intros (s1 & H). discriminate.
  - cbn. intro H. injection H as <- <-. eexists _, _, _.
    repeat split; try reflexivity; try discriminate.
    intros (s1 & H). discriminate.
Qed.

Lemma publish_from_returns (metar_data : list (string * Modified.StationData)) :
  forall (count : nat) (s : State),
  exists new s',
    Modified.publish_from self count metar_data s = (Ret (count + accepted new)%nat, s')
    /\ trace s' = trace s ++ new
    /\ attempted new
       = map (fun station => "weather_" ^^ fst station)
           (filter (fun station =>
                      publishable (Modified.airports self) station && synthesizes station)
              metar_data).
Proof.
  induction metar_data as [|[icao data] rest IH]; intros count s.
  - exists [], s. cbn. rewrite Nat.add_0_r, app_nil_r. auto.
  - cbn [Modified.publish_from]. unfold bind at 1.
    destruct (publish_station_returns icao data s)
      as (b & new1 & s1 & -> & Ht & Hacc & Hatt & _).
    destruct (IH (if b then S count else count) s1) as (new2 & s2 & -> & Ht2 & Hatt2).
    exists (new1 ++ new2), s2. repeat split.
    + rewrite accepted_app, Hacc. destruct b; do 2 f_equal; lia.
    + now rewrite Ht2, Ht, app_assoc.
    + rewrite attempted_app, Hatt, Hatt2. cbn [filter].
      destruct (publishable _ (icao, data) && synthesizes (icao, data)); reflexivity.
Qed.

Lemma publish_from_app (pre post : list (string * Modified.StationData)) :
  forall (count : nat) (s : State),
    Modified.publish_from self count (pre ++ post) s
    = (count' <- Modified.publish_from self count pre ;;
       Modified.publish_from self count' post) s.
Proof.
  induction pre as [|[icao data] pre IH]; intros count s.
  - reflexivity.
  - cbn [app Modified.publish_from]. rewrite bind_assoc.
    apply bind_ext. intros b s1. apply IH.
Qed.

(** C8. [publish_weather_entities] returns for every batch, whatever the
    synthesizer and the entity manager do: each station that is publishable
    and synthesized is handed to the manager once, in batch order, whatever
    became of the stations before it, and the result is the number of calls
    the manager accepted.  When the synthesis or the publication of a
    station raises, the exception is caught and the station not counted;
    after any station, failed or not, the loop goes on with the stations
    that follow. *)
Theorem C8_publish_failures_are_isolated :
  (forall metar_data s, exists count new s',
      Modified.publish_weather_entities self metar_data s = (Ret count, s')
      /\ trace s' = trace s ++ new
      /\ attempted new
         = map (fun station => "weather_" ^^ fst station)
             (filter (fun station =>
                        publishable (Modified.airports self) station
                        && synthesizes station)
                metar_data)
      /\ count = accepted new)
  /\ (forall pre icao data post s, exists count s1 published s2,
        Modified.publish_weather_entities self pre s = (Ret count, s1)
        /\ Modified.publish_station self icao data s1 = (Ret published, s2)
        /\ (forall e s', Modified.station_body self icao data s1
                         = (Raise (Exception e), s') -> published = false)
        /\ Modified.publish_weather_entities self (pre ++ (icao, data) :: post) s
           = Modified.publish_from self (if published then S count else count) post s2).
Proof.
  split.
  - intros metar_data s. unfold Modified.publish_weather_entities.
    destruct (publish_from_returns metar_data 0%nat s) as (new & s' & H & Ht & Hatt).
    exists (accepted new), new, s'. auto.
  - intros pre icao data post s. unfold Modified.publish_weather_entities.
    destruct (publish_from_returns pre 0%nat s) as (new & s1 & H & _).
    destruct (publish_station_returns icao data s1) as (b & new1 & s2 & Hb & _ & _ & _ & Hiff).
    exists (accepted new), s1, b, s2. repeat split; auto.
    + intros e s' Hraise. destruct b; [|reflexivity].
      destruct (proj1 Hiff eq_refl) as (s0 & E). congruence.
    + rewrite publish_from_app. unfold bind at 1. rewrite H.
      cbn [Modified.publish_from]. unfold bind at 1. now rewrite Hb.
Qed.

End Publishing.

(** The sample batch: the manager refuses the first call and accepts the
    second; the unknown airport and the unparsed report are skipped. *)
Example one_refusal_does_not_stop_the_batch :
  let wd icao p := Modified.Weather (Modified.MetarApiClient.weather_data_of icao "" None p) in
  let batch :=
    [("KBOS", wd "KBOS" Sample.clear_day); ("KXXX", wd "KXXX" Sample.clear_day);
     ("KORH", wd "KORH" Sample.clear_day); ("KBED", Modified.ParseError "bad" "")]%string in
  let '(r, s') := Modified.publish_weather_entities (Sample.integration 30) batch Sample.boot in
  r = Ret 1%nat /\ attempted (trace s') = ["weather_KBOS"; "weather_KORH"]%string.
Proof. vm_compute. split; reflexivity. Qed.

(** A gale over Boston: its synthesis raises, the exception is logged, no
    call is made for it, and Worcester is handed to the manager all the
    same, which refuses this first call. *)
Example a_gale_does_not_stop_the_batch :
  let wd icao p := Modified.Weather (Modified.MetarApiClient.weather_data_of icao "" None p) in
  let batch := [("KBOS", wd "KBOS" Sample.gale); ("KORH", wd "KORH" Sample.clear_day)]%string in
  let '(r, s') := Modified.publish_weather_entities (Sample.integration 30) batch Sample.boot in
  r = Ret 0%nat
  /\ attempted (trace s') = ["weather_KORH"]%string
  /\ hd_error (trace s') = Some (Logged ERROR "Error publishing weather entity for KBOS: ERROR").
Proof. vm_compute. repeat split; reflexivity. Qed.

(** ** The loops *)

Section Loops.
Context `{RT : Runtime}.

Variable airports : list (string * Airport.t).
Variable metar_client : list string -> M (list (string * Original.MetarInfo)).
Variable taf_client : list string -> M (list (string * Original.TafInfo)).
Variable publisher :
  string -> Airport.t -> Original.MetarInfo -> option Original.TafInfo -> M bool.
Variable minutes : Z.

Variable self : Modified.LatticeWeatherIntegration.
Variable client : list string -> M (list (string * Modified.StationData)).

#[local] Abbreviation run_cycle :=
  (Original.cycle airports metar_client taf_client publisher minutes).
#[local] Abbreviation run_iteration :=
  (Original.iteration airports metar_client taf_client publisher minutes).

(** [run_integration] after a cycle that raised. *)
Lemma run_integration_recovers (s s1 : State) (e : string) :
  run_cycle s = (Raise (Exception e), s1) ->
  run_iteration s
  = (Ret true,
     {| env := elapse 300 (env s1);
        trace := trace s1 ++ [Logged ERROR ("Error in integration loop: " ^^ e);
                              Logged INFO "Retrying in 5 minutes...";
                              Slept 300] |}).
Proof.
  intro H. unfold Original.iteration. rewrite H. cbn.
  now rewrite <- !app_assoc.
Qed.

(** [start] after a cycle that raised. *)
Lemma start_resumes (s s1 : State) (e : string) :
  Modified.cycle self client s = (Raise (Exception e), s1) ->
  Modified.iteration self client s
  = (Ret true,
     {| env := elapse (Modified.update_interval_minutes self * 60) (env s1);
        trace := trace s1 ++
          [Logged ERROR ("Error in integration cycle: " ^^ e);
           Logged INFO ("Waiting " ^^ str_of_int (Modified.update_interval_minutes self)
                          ^^ " minutes until next update...");
           Slept (Modified.update_interval_minutes self * 60)] |}).
Proof.
  intro H. unfold Modified.iteration, try_except, bind. rewrite H. cbn.
  now rewrite <- !app_assoc.
Qed.

(** C9, as the code has it.  When a cycle of [run_integration] raises an
    exception, the loop logs the error, sleeps 300 seconds and goes on
    with its next cycle; 300 seconds are less than the normal wait
    exactly when the interval is above 5 minutes.  When a cycle of
    [start] raises one, the loop logs the error, sleeps the normal
    interval and goes on with its next cycle. *)
Theorem C9_a_raising_cycle_is_followed_by_the_next
    (s s1 t t1 : State) (e e' : string)
    (Hrun : run_cycle s = (Raise (Exception e), s1))
    (Hstart : Modified.cycle self client t = (Raise (Exception e'), t1)) :
  (forall n,
      while_true (S n) run_iteration s
      = while_true n run_iteration
          {| env := elapse 300 (env s1);
             trace := trace s1 ++ [Logged ERROR ("Error in integration loop: " ^^ e);
                                   Logged INFO "Retrying in 5 minutes...";
                                   Slept 300] |})
  /\ (300 < minutes * 60 <-> 5 < minutes)
  /\ (forall n,
        while_true (S n) (Modified.iteration self client) t
        = while_true n (Modified.iteration self client)
            {| env := elapse (Modified.update_interval_minutes self * 60) (env t1);
               trace := trace t1 ++
                 [Logged ERROR ("Error in integration cycle: " ^^ e');
                  Logged INFO ("Waiting "
                                 ^^ str_of_int (Modified.update_interval_minutes self)
                                 ^^ " minutes until next update...");
                  Slept (Modified.update_interval_minutes self * 60)] |}).
Proof.
  split; [|split].
  - intro n. cbn [while_true]. unfold bind at 1.
    now rewrite (run_integration_recovers _ _ _ Hrun).
  - lia.
  - intro n. cbn [while_true]. unfold bind at 1.
    now rewrite (start_resumes _ _ _ Hstart).
Qed.

End Loops.

(** The loops on the sample world, with a client whose request fails: both
    cycles raise, and each loop goes on from the state after its wait. *)
Lemma C9_failing_client_witness :
  let raised := @Build_State Sample.runtime 0%nat [Logged INFO "Retrieving METAR data..."] in
  let run := Original.iteration Sample.airports Sample.failing_client
               Sample.failing_client Sample.no_publish 30 in
  let start := Modified.iteration (Sample.integration 30) Sample.failing_client in
  Original.cycle Sample.airports Sample.failing_client Sample.failing_client
    Sample.no_publish 30 Sample.boot
  = (Raise (Exception "connection reset"), raised)
  /\ Modified.cycle (Sample.integration 30) Sample.failing_client Sample.boot
     = (Raise (Exception "connection reset"), Sample.boot)
  /\ (forall n,
        while_true (S n) run Sample.boot
        = while_true n run
            (@Build_State Sample.runtime 0%nat
               [Logged INFO "Retrieving METAR data...";
                Logged ERROR "Error in integration loop: connection reset";
                Logged INFO "Retrying in 5 minutes...";
                Slept 300]))
  /\ (300 < 30 * 60 <-> 5 < 30)
  /\ (forall n,
        while_true (S n) start Sample.boot
        = while_true n start
            (@Build_State Sample.runtime 0%nat
               [Logged ERROR "Error in integration cycle: connection reset";
                Logged INFO "Waiting 30 minutes until next update...";
                Slept 1800])).
Proof.
  cbv zeta.
  split; [reflexivity|]. split; [reflexivity|].
  exact (C9_a_raising_cycle_is_followed_by_the_next
           Sample.airports Sample.failing_client Sample.failing_client
           Sample.no_publish 30 (Sample.integration 30) Sample.failing_client
           Sample.boot
           (@Build_State Sample.runtime 0%nat [Logged INFO "Retrieving METAR data..."])
           Sample.boot Sample.boot
           "connection reset" "connection reset" eq_refl eq_refl).
Defined.

(** C9, as stated, fails on [start]: with the default interval of 30
    minutes a cycle that raised is followed by a sleep of 1800 seconds, the
    normal interval and not a shorter one; and on [run_integration] run
    with an interval of 5 minutes, where the 300 seconds of the recovery
    wait are the normal interval. *)
Lemma C9_recovery_wait_is_not_shorter :
  (exists s',
      Modified.iteration (Sample.integration 30) Sample.failing_client Sample.boot
      = (Ret true, s')
      /\ trace s' = [Logged ERROR "Error in integration cycle: connection reset";
                     Logged INFO "Waiting 30 minutes until next update...";
                     Slept 1800]
      /\ ~ 1800 < Modified.update_interval_minutes (Sample.integration 30) * 60)
  /\ (exists s',
        Original.iteration Sample.airports Sample.failing_client Sample.failing_client
          Sample.no_publish 5 Sample.boot
        = (Ret true, s')
        /\ trace s' = [Logged INFO "Retrieving METAR data...";
                       Logged ERROR "Error in integration loop: connection reset";
                       Logged INFO "Retrying in 5 minutes...";
                       Slept 300]
        /\ ~ 300 < 5 * 60).
Proof.
  split; eexists; (split; [reflexivity|]); (split; [reflexivity|]); cbn; lia.
Qed.

(** * Further properties *)

(** ** The classifier and what is derived from its answer *)

#[local] Ltac arith :=
  solve [ lia | lra | left; lia | left; lra | right; lia | right; lra
        | discriminate | congruence ].

Lemma determine_is_category (v : Q) (c : option Z) :
  is_category (Modified.FlightConditions.determine_flight_conditions v c).
Proof.
  unfold is_category, Modified.FlightConditions.determine_flight_conditions.
  repeat decide_test; auto.
Qed.

(** X1. The classifier is monotone: a report with no more visibility and
    no higher ceiling than another is never put in a milder category. *)
Theorem classifier_is_monotone (v1 v2 : Q) (c1 c2 : option Z)
    (Hv : (v1 <= v2)%Q)
    (Hc : ceiling_or_sentinel c1 <= ceiling_or_sentinel c2) :
  (severity (Modified.FlightConditions.determine_flight_conditions v2 c2)
   <= severity (Modified.FlightConditions.determine_flight_conditions v1 c1))%nat.
Proof.
  unfold Modified.FlightConditions.determine_flight_conditions.
  fold (ceiling_or_sentinel c1) (ceiling_or_sentinel c2).
  revert Hc. generalize (ceiling_or_sentinel c1) (ceiling_or_sentinel c2).
  intros z1 z2 Hc.
  repeat decide_test; cbn; try lia; exfalso;
    repeat match goal with
           | H : ~ (_ \/ _) |- _ => apply Decidable.not_or in H; destruct H
           | H : _ \/ _ |- _ => destruct H
           end; arith.
Qed.

Lemma classifier_is_monotone_witness :
  (severity (Modified.FlightConditions.determine_flight_conditions 4 None)
   <= severity (Modified.FlightConditions.determine_flight_conditions 2 (Some 800%Z)))%nat.
Proof.
  apply (classifier_is_monotone 2 4 (Some 800) None); [lra | cbn; lia].
Defined.

(** X2. What the entity of a classified report says: the disposition is
    HOSTILE exactly when the ceiling is under 1000 or the visibility under
    3, ASSUMED_FRIENDLY exactly when the ceiling is at least 3000 and the
    visibility at least 5; the category health is never OFFLINE. *)
Theorem disposition_of_a_classified_report (v : Q) (c : option Z) :
  let fc := Modified.FlightConditions.determine_flight_conditions v c in
  let ceiling := ceiling_or_sentinel c in
  (Modified.FlightConditions.get_disposition_for_condition fc = Disposition.HOSTILE
   <-> ceiling < 1000 \/ (v < 3)%Q)
  /\ (Modified.FlightConditions.get_disposition_for_condition fc = Disposition.SUSPICIOUS
      <-> ~ (ceiling < 1000 \/ (v < 3)%Q) /\ (ceiling < 3000 \/ (v < 5)%Q))
  /\ (Modified.FlightConditions.get_disposition_for_condition fc
      = Disposition.ASSUMED_FRIENDLY
      <-> 3000 <= ceiling /\ (5 <= v)%Q)
  /\ band (Modified._get_health_status_for_condition fc) <> BandOffline.
Proof.
  cbv zeta. unfold Modified.FlightConditions.determine_flight_conditions.
  fold (ceiling_or_sentinel c). generalize (ceiling_or_sentinel c). intro z.
  repeat decide_test; cbn;
    repeat match goal with
           | H : ~ (_ \/ _) |- _ => apply Decidable.not_or in H; destruct H
           | H : _ \/ _ |- _ => destruct H
           end;
    repeat split; intros;
    repeat match goal with
           | H : _ /\ _ |- _ => destruct H
           | H : ~ (_ \/ _) |- _ => apply Decidable.not_or in H; destruct H
           | H : _ \/ _ |- _ => destruct H
           | |- ~ _ => intro
           end; try arith.
Qed.

(** X3. Visibility alone: a visibility whose own health is ERROR always
    gives LIFR, a report classified VFR always has a HEALTHY visibility,
    and without a ceiling the report is VFR exactly when the visibility is
    HEALTHY and LIFR exactly when it is in ERROR. *)
Theorem visibility_health_and_category (v : Q) (c : option Z) :
  let vis_band := band (Modified._get_health_status_for_visibility v) in
  (vis_band = BandError
   -> Modified.FlightConditions.determine_flight_conditions v c = "LIFR"%string)
  /\ (Modified.FlightConditions.determine_flight_conditions v c = "VFR"%string
      -> vis_band = BandHealthy)
  /\ (Modified.FlightConditions.determine_flight_conditions v None = "VFR"%string
      <-> vis_band = BandHealthy)
  /\ (Modified.FlightConditions.determine_flight_conditions v None = "LIFR"%string
      <-> vis_band = BandError).
Proof.
  cbv zeta.
  unfold Modified.FlightConditions.determine_flight_conditions,
    Modified._get_health_status_for_visibility.
  fold (ceiling_or_sentinel c). generalize (ceiling_or_sentinel c). intro z.
  cbn [Z.ltb Z.compare Pos.compare Pos.compare_cont orb].
  destruct (Qltb_spec v 1), (Qltb_spec v 3), (Qltb_spec v 5),
    (Z.ltb_spec0 z 500), (Z.ltb_spec0 z 1000), (Z.ltb_spec0 z 3000);
    cbn; repeat split; intros; try arith.
Qed.

(** ** The health evaluators, ordered *)

(** X4. The evaluators are monotone: less visibility is never milder,
    temperature is never milder further down below 35 degrees or further
    up above -10 degrees, and where a wind has a band, every lesser wind
    has one that is no worse; a wind without a band is above 30 knots. *)
Theorem health_evaluators_are_monotone (x y : Q) (Hxy : (x <= y)%Q) :
  match Modified._get_health_status_for_wind y with
  | Ret hy =>
      exists hx, Modified._get_health_status_for_wind x = Ret hx
                 /\ (band_rank (band hx) <= band_rank (band hy))%nat
  | Raise _ => (30 < y)%Q
  end
  /\ (band_rank (band (Modified._get_health_status_for_visibility y))
      <= band_rank (band (Modified._get_health_status_for_visibility x)))%nat
  /\ ((y <= 35)%Q
      -> (band_rank (band (Modified._get_health_status_for_temperature y))
          <= band_rank (band (Modified._get_health_status_for_temperature x)))%nat)
  /\ ((-10 <= x)%Q
      -> (band_rank (band (Modified._get_health_status_for_temperature x))
          <= band_rank (band (Modified._get_health_status_for_temperature y)))%nat).
Proof.
  unfold Modified._get_health_status_for_wind, Modified._get_health_status_for_visibility,
    Modified._get_health_status_for_temperature, HealthStatus_ERROR.
  split; [|repeat split; intros; repeat decide_test; cbn; try lia; exfalso;
            repeat match goal with
                   | H : ~ (_ \/ _) |- _ => apply Decidable.not_or in H; destruct H
                   | H : _ \/ _ |- _ => destruct H
                   end; lra].
  destruct (Qltb_spec 30 y), (Qltb_spec 15 y), (Qltb_spec 30 x), (Qltb_spec 15 x);
    try assumption; try lra;
    eexists; (split; [reflexivity | cbn; lia]).
Qed.

Lemma health_evaluators_are_monotone_witness :
  exists hx, Modified._get_health_status_for_wind 10 = Ret hx
             /\ (band_rank (band hx) <= band_rank (band HealthStatus.WARN))%nat.
Proof.
  exact (proj1 (health_evaluators_are_monotone 10 20 ltac:(lra))).
Defined.

(** ** The ceiling of a report *)

(** X5. The ceiling of the modified variant is the altitude of the first
    broken or overcast layer whose altitude is a number other than 0; it is
    never 0, and it is [None] exactly when no layer counts. *)
Theorem ceiling_is_first_counting_layer (cloud_layers : list Modified.CloudLayer) :
  match Modified.MetarApiClient._get_ceiling_feet cloud_layers with
  | Some h =>
      h <> 0
      /\ exists before layer after,
           cloud_layers = before ++ layer :: after
           /\ Forall (fun l => counts_for_ceiling l = false) before
           /\ is_ceiling_coverage (Modified.coverage layer) = true
           /\ Modified.altitude_ft layer = Some h
  | None => Forall (fun l => counts_for_ceiling l = false) cloud_layers
  end.
Proof.
  induction cloud_layers as [|l rest IH];
    cbn [Modified.MetarApiClient._get_ceiling_feet].
  - constructor.
  - change (is_ceiling_coverage (Modified.coverage l)
            && truthy_int (Modified.altitude_ft l)) with (counts_for_ceiling l).
    destruct (counts_for_ceiling l) eqn:E.
    + unfold counts_for_ceiling in E. apply andb_true_iff in E as [Ec Ea].
      destruct (Modified.altitude_ft l) as [h|] eqn:Eh; [|discriminate].
      cbn in Ea. split.
      * intro H0. subst h. discriminate.
      * exists [], l, rest. repeat split; auto.
    + destruct (Modified.MetarApiClient._get_ceiling_feet rest) as [h|].
      * destruct IH as (Hn & before & layer & after & -> & Hb & Hc & Ha).
        split; [assumption|].
        exists (l :: before), layer, after. repeat split; auto.
      * constructor; assumption.
Qed.

(** X6. When a report gives its layers from the lowest up, the ceiling of
    the original variant is the lowest broken or overcast layer: no such
    layer of the report is below it. *)
Theorem ceiling_is_lowest_when_ascending (sky : list SkyLayer) (h : Z)
    (Hsorted : StronglySorted Z.le (reported_heights sky))
    (Hceiling : Original.ceiling_of_sky sky = Some h) :
  Forall (fun l => is_ceiling_coverage (cover l) = true ->
                   forall h', height l = Some h' -> h <= h') sky.
Proof.
  induction sky as [|l rest IH]; [constructor|].
  cbn [Original.ceiling_of_sky] in Hceiling.
  unfold reported_heights in Hsorted, IH. cbn [flat_map] in Hsorted.
  destruct (is_ceiling_coverage (cover l)) eqn:Ec.
  - destruct (height l) as [h0|] eqn:Eh; cbn [app] in Hsorted.
    + injection Hceiling as ->.
      apply StronglySorted_inv in Hsorted as [_ Hall].
      constructor.
      * intros _ h' Hh'. rewrite Eh in Hh'. injection Hh' as <-. lia.
      * rewrite Forall_forall in *. intros l' Hin _ h' Hh'.
        apply Hall. apply in_flat_map.
        exists l'. split; [assumption|]. rewrite Hh'. now left.
    + constructor; [intros _ h' Hh'; congruence | auto].
  - constructor; [intro; congruence|].
    apply IH; [|assumption].
    destruct (height l); cbn [app] in Hsorted; [|assumption].
    now apply StronglySorted_inv in Hsorted.
Qed.

Lemma ceiling_is_lowest_when_ascending_witness :
  Original.ceiling_of_sky (sky Sample.layered) = Some 2500
  /\ Forall (fun l => is_ceiling_coverage (cover l) = true ->
                      forall h', height l = Some h' -> 2500 <= h')
       (sky Sample.layered).
Proof.
  split; [reflexivity|].
  apply (ceiling_is_lowest_when_ascending (sky Sample.layered) 2500); [|reflexivity].
  cbn. repeat constructor; lia.
Defined.

Lemma ceilings_agree (sky : list SkyLayer) :
  Forall (fun l => is_ceiling_coverage (cover l) = true -> height l <> Some 0) sky ->
  Modified.MetarApiClient._get_ceiling_feet
    (map (fun layer => {| Modified.coverage := cover layer;
                          Modified.altitude_ft := height layer;
                          Modified.cloud_type := cloud layer |}) sky)
  = Original.ceiling_of_sky sky.
Proof.
  induction 1 as [|l rest Hl _ IH]; [reflexivity|].
  cbn [map Modified.MetarApiClient._get_ceiling_feet Original.ceiling_of_sky
       Modified.coverage Modified.altitude_ft].
  destruct (is_ceiling_coverage (cover l)) eqn:Ec; cbn [andb]; [|assumption].
  destruct (height l) as [h|]; cbn [truthy_int]; [|assumption].
  destruct (Z.eqb_spec h 0) as [->|]; cbn [negb]; [|reflexivity].
  now elim (Hl eq_refl).
Qed.

(** X7. The two variants read the same ceiling off the cloud layers of a
    report that has no broken or overcast layer at 0 feet, and so put one
    and the same visibility reading in the same flight category. *)
Theorem variants_agree_without_ceiling_at_ground (p : ParsedMetar)
    (Hground : Forall (fun l => is_ceiling_coverage (cover l) = true ->
                                height l <> Some 0) (sky p)) :
  Modified.MetarApiClient._get_ceiling_feet (Modified.MetarApiClient._parse_cloud_layers p)
  = Original.ceiling_of_sky (sky p)
  /\ forall v : Q,
       Modified.FlightConditions.determine_flight_conditions v
         (Modified.MetarApiClient._get_ceiling_feet
            (Modified.MetarApiClient._parse_cloud_layers p))
       = Original.FlightConditions.determine_flight_conditions v
           (Original.ceiling_of_sky (sky p)).
Proof.
  unfold Modified.MetarApiClient._parse_cloud_layers.
  rewrite (ceilings_agree _ Hground). split; reflexivity.
Qed.

Lemma variants_agree_without_ceiling_at_ground_witness :
  Modified.MetarApiClient._get_ceiling_feet
    (Modified.MetarApiClient._parse_cloud_layers Sample.layered)
  = Some 2500
  /\ Original.ceiling_of_sky (sky Sample.layered) = Some 2500.
Proof.
  split; [reflexivity|].
  rewrite <- (proj1 (variants_agree_without_ceiling_at_ground Sample.layered
                       ltac:(cbn; repeat constructor; intros _ H; discriminate))).
  reflexivity.
Defined.

(** ** Dicts *)

Lemma dict_get_set_same {V} (d : list (string * V)) (k : string) (v : V) :
  dict_get (dict_set d k v) k = Some v.
Proof.
  induction d as [|[k' v'] d IH]; cbn.
  - now rewrite String.eqb_refl.
  - destruct (String.eqb k k') eqn:E; cbn; rewrite E; auto.
Qed.

Lemma dict_get_set_other {V} (d : list (string * V)) (k k' : string) (v : V) :
  k <> k' -> dict_get (dict_set d k v) k' = dict_get d k'.
Proof.
  intro Hne. induction d as [|[k0 v0] d IH]; cbn.
  - destruct (String.eqb_spec k' k); congruence.
  - destruct (String.eqb_spec k k0) as [->|]; cbn.
    + destruct (String.eqb_spec k' k0); congruence.
    + destruct (String.eqb_spec k' k0); auto.
Qed.

Lemma dict_set_keys {V} (d : list (string * V)) (k : string) (v : V) :
  map fst (dict_set d k v)
  = if existsb (String.eqb k) (map fst d) then map fst d else map fst d ++ [k].
Proof.
  induction d as [|[k0 v0] d IH]; cbn; [reflexivity|].
  destruct (String.eqb_spec k k0) as [->|]; cbn; [reflexivity|].
  rewrite IH. destruct (existsb _ _); reflexivity.
Qed.

Lemma dict_set_nodup {V} (d : list (string * V)) (k : string) (v : V) :
  NoDup (map fst d) -> NoDup (map fst (dict_set d k v)).
Proof.
  intro H. rewrite dict_set_keys.
  destruct (existsb (String.eqb k) (map fst d)) eqn:E; [assumption|].
  apply NoDup_app; [assumption | repeat constructor; intros [] | ].
  intros x Hx [Hk|[]]. subst x.
  assert (existsb (String.eqb k) (map fst d) = true); [|congruence].
  apply existsb_exists. exists k. split; [assumption | apply String.eqb_refl].
Qed.

Lemma dict_set_in {V} (d : list (string * V)) (k : string) (v : V) (x : string * V) :
  In x (dict_set d k v) -> x = (k, v) \/ In x d.
Proof.
  induction d as [|[k0 v0] d IH]; cbn.
  - intros [<-|[]]. now left.
  - destruct (String.eqb_spec k k0) as [->|]; cbn; intuition.
Qed.

Lemma dict_get_in {V} (d : list (string * V)) (k : string) (v : V) :
  dict_get d k = Some v -> In k (map fst d).
Proof.
  induction d as [|[k0 v0] d IH]; cbn; [discriminate|].
  destruct (String.eqb_spec k k0) as [->|]; auto.
Qed.

Lemma upper_ascii_idempotent (c : ascii) : upper_ascii (upper_ascii c) = upper_ascii c.
Proof. destruct c as [[] [] [] [] [] [] [] []]; reflexivity. Qed.

Lemma upper_idempotent (s : string) : upper (upper s) = upper s.
Proof.
  induction s as [|c s IH]; cbn; [reflexivity|].
  now rewrite upper_ascii_idempotent, IH.
Qed.

(** ** Fetching, modified variant *)

Lemma only_logs_app (t u : list Event) : only_logs t -> only_logs u -> only_logs (t ++ u).
Proof. intros Ht Hu. apply Forall_app. now split. Qed.

Lemma find_snoc {A} (f : A -> bool) (l : list A) (x : A) :
  find f (l ++ [x])
  = match find f l with
    | Some y => Some y
    | None => if f x then Some x else None
    end.
Proof.
  induction l as [|y l IH]; cbn; [reflexivity|].
  destruct (f y); auto.
Qed.

Section Fetching.
Context `{RT : Runtime}.
Variable session_get : list string -> Env -> res (list ApiEntry) * Env.
Variable Metar_Metar : string -> res ParsedMetar.

#[local] Abbreviation collect := (Modified.MetarApiClient.collect Metar_Metar).
#[local] Abbreviation get_metar_data :=
  (Modified.MetarApiClient.get_metar_data session_get Metar_Metar).

(** Parsing one entry the loop keeps: the stored value, and at most a log
    record; an interrupt of the parser goes through. *)
Lemma parse_entry_stored (entry : ApiEntry) (icao : string) (s : State) :
  get_upper (icaoId entry) = Ret icao ->
  match stored Metar_Metar entry with
  | Some value =>
      exists new,
        Modified.MetarApiClient.parse_entry Metar_Metar icao (get_str (rawOb entry)) entry s
        = (Ret value, {| env := env s; trace := trace s ++ new |})
        /\ only_logs new
  | None =>
      Modified.MetarApiClient.parse_entry Metar_Metar icao (get_str (rawOb entry)) entry s
      = (Raise KeyboardInterrupt, s)
  end.
Proof.
  intro Hid. unfold stored, Modified.MetarApiClient.parse_entry. rewrite Hid.
  destruct (Metar_Metar (get_str (rawOb entry))) as [parsed|[e|]].
  - exists []. rewrite app_nil_r. destruct s. split; [reflexivity | constructor].
  - eexists. split; [reflexivity | repeat constructor].
  - reflexivity.
Qed.

Lemma stored_is_keyed (entry : ApiEntry) (icao : string) (value : Modified.StationData) :
  get_upper (icaoId entry) = Ret icao ->
  stored Metar_Metar entry = Some value ->
  truthy_str (get_str (rawOb entry)) = true ->
  match value with
  | Modified.Weather w =>
      Modified.icao w = icao
      /\ exists fc, Modified.flight_condition w = Some fc /\ is_category fc
  | Modified.ParseError _ raw => truthy_str raw = true
  end.
Proof.
  unfold stored. intros Hid H Hraw. rewrite Hid in H.
  destruct (Metar_Metar (get_str (rawOb entry))) as [parsed|[e|]];
    [| |discriminate]; injection H as <-.
  - split; [reflexivity|]. eexists. split; [reflexivity|].
    apply determine_is_category.
  - assumption.
Qed.

Lemma get_upper_is_upper (x : JsonText) (icao : string) :
  get_upper x = Ret icao -> upper icao = icao.
Proof.
  destruct x as [| |t]; cbn; intro H; [|discriminate|]; injection H as <-.
  - reflexivity.
  - apply upper_idempotent.
Qed.

Lemma get_upper_raises (x : JsonText) (ex : exn) :
  get_upper x = Raise ex -> x = Null /\ exists msg, ex = Exception msg.
Proof.
  destruct x as [| |t]; cbn; intro H; try discriminate.
  injection H as <-. eauto.
Qed.

Lemma well_keyed_set (results : list (string * Modified.StationData))
    (entry : ApiEntry) (icao : string) (value : Modified.StationData) :
  well_keyed results ->
  get_upper (icaoId entry) = Ret icao ->
  truthy_str icao = true ->
  truthy_str (get_str (rawOb entry)) = true ->
  stored Metar_Metar entry = Some value ->
  well_keyed (dict_set results icao value).
Proof.
  intros [Hnd Hall] Hid Hk Hraw Hv. split; [now apply dict_set_nodup|].
  rewrite Forall_forall in *. intros x Hx.
  apply dict_set_in in Hx as [->|Hx]; [|now apply Hall].
  cbn [fst snd]. split; [assumption|].
  split; [eapply get_upper_is_upper; eassumption|].
  eapply stored_is_keyed; eassumption.
Qed.

(** The loop over the answer: the world is left alone, the trace grows by
    log records, and the result is well keyed and holds for each station
    what the last kept entry for it came to; the loop raises an exception
    only on an entry whose id is [null]. *)
Lemma collect_returns (data : list ApiEntry) :
  forall (results : list (string * Modified.StationData)) (s : State),
    well_keyed results ->
    exists r new,
      collect results data s = (r, {| env := env s; trace := trace s ++ new |})
      /\ only_logs new
      /\ match r with
         | Ret results' =>
             well_keyed results'
             /\ forall k,
                  dict_get results' k
                  = match find (reports k) (rev data) with
                    | Some entry => stored Metar_Metar entry
                    | None => dict_get results k
                    end
         | Raise KeyboardInterrupt => True
         | Raise (Exception _) => Exists (fun entry => icaoId entry = Null) data
         end.
Proof.
  induction data as [|entry rest IH]; intros results s Hwk.
  - exists (Ret results), []. rewrite app_nil_r. destruct s.
    repeat split; try apply Hwk; constructor.
  - cbn [Modified.MetarApiClient.collect rev]. unfold bind at 1, lift.
    destruct (get_upper (icaoId entry)) as [icao|ex] eqn:Hid.
    2:{ destruct (get_upper_raises _ _ Hid) as (Hnull & msg & ->).
        exists (Raise (Exception msg)), []. rewrite app_nil_r. destruct s.
        repeat split; [constructor | now left]. }
    set (raw_text := get_str (rawOb entry)).
    assert (Hskip :
              truthy_str icao && truthy_str raw_text = false ->
              exists r new,
                collect results rest s = (r, {| env := env s; trace := trace s ++ new |})
                /\ only_logs new
                /\ match r with
                   | Ret results' =>
                       well_keyed results'
                       /\ forall k,
                            dict_get results' k
                            = match find (reports k) (rev rest ++ [entry]) with
                              | Some entry => stored Metar_Metar entry
                              | None => dict_get results k
                              end
                   | Raise KeyboardInterrupt => True
                   | Raise (Exception _) =>
                       Exists (fun entry => icaoId entry = Null) (entry :: rest)
                   end).
    { intro Hf. destruct (IH results s Hwk) as (r & new & Hc & Hl & Hr).
      exists r, new. repeat split; auto.
      destruct r as [results'|[e|]]; auto; try (now right).
      destruct Hr as [Hwk' Hget]. split; [assumption|].
      intro k. rewrite Hget, find_snoc.
      destruct (find (reports k) (rev rest)); [reflexivity|].
      unfold reports. rewrite Hid. fold raw_text.
      rewrite <- andb_assoc, Hf, andb_false_r. reflexivity. }
    destruct (truthy_str icao) eqn:Hk; cbn [negb orb]; [|now apply Hskip].
    destruct (truthy_str raw_text) eqn:Hraw; cbn [negb]; [|now apply Hskip].
    clear Hskip. unfold bind at 1.
    pose proof (parse_entry_stored entry icao s Hid) as Hp. fold raw_text in Hp.
    destruct (stored Metar_Metar entry) as [value|] eqn:Hst.
    + destruct Hp as (new1 & -> & Hl1).
      destruct (IH (dict_set results icao value)
                   {| env := env s; trace := trace s ++ new1 |})
        as (r & new2 & Hc & Hl2 & Hr).
      { eapply well_keyed_set; eassumption. }
      exists r, (new1 ++ new2). cbn [env trace] in Hc.
      rewrite Hc, app_assoc. split; [reflexivity|].
      split; [now apply only_logs_app|].
      destruct r as [results'|[e|]]; auto; try (now right).
      destruct Hr as [Hwk' Hget]. split; [assumption|].
      intro k. rewrite Hget, find_snoc.
      destruct (find (reports k) (rev rest)); [reflexivity|].
      unfold reports. rewrite Hid. fold raw_text. rewrite Hk, Hraw, !andb_true_r.
      destruct (String.eqb_spec icao k) as [<-|Hne].
      * rewrite dict_get_set_same. congruence.
      * now apply dict_get_set_other.
    + rewrite Hp. exists (Raise KeyboardInterrupt), [].
      rewrite app_nil_r. destruct s. repeat split. constructor.
Qed.

Lemma well_keyed_nil : well_keyed [].
Proof. split; constructor. Qed.

(** What the request and the loop after it come to. *)
Lemma get_metar_data_cases (icao_codes : list string) (s : State) :
  match session_get icao_codes (env s) with
  | (Ret data, env') =>
      exists r new,
        get_metar_data icao_codes s = (r, {| env := env'; trace := trace s ++ new |})
        /\ only_logs new
        /\ match r with
           | Ret results =>
               well_keyed results
               /\ (Forall (fun entry => icaoId entry <> Null) data ->
                   forall k,
                     dict_get results k
                     = match find (reports k) (rev data) with
                       | Some entry => stored Metar_Metar entry
                       | None => None
                       end)
           | Raise KeyboardInterrupt => True
           | Raise (Exception _) => False
           end
  | (Raise (Exception e), env') =>
      get_metar_data icao_codes s
      = (Ret [], {| env := env';
                    trace := trace s ++ [Logged ERROR ("Error fetching METAR data: " ^^ e)] |})
  | (Raise KeyboardInterrupt, env') =>
      get_metar_data icao_codes s
      = (Raise KeyboardInterrupt, {| env := env'; trace := trace s |})
  end.
Proof.
  unfold Modified.MetarApiClient.get_metar_data, try_except, bind, perform.
  destruct (session_get icao_codes (env s)) as [[data|[e|]] env']; try reflexivity.
  destruct (collect_returns data [] {| env := env'; trace := trace s |} well_keyed_nil)
    as (r & new & Hc & Hl & Hr).
  cbn [env trace] in Hc. rewrite Hc.
  destruct r as [results|[e|]].
  - exists (Ret results), new. destruct Hr as [Hwk Hget]. auto.
  - eexists (Ret []), _. cbn. rewrite <- app_assoc.
    split; [reflexivity|]. split; [apply only_logs_app; [assumption | repeat constructor]|].
    split; [apply well_keyed_nil|].
    intro Hids. exfalso. apply Exists_exists in Hr as (entry & Hin & Hnull).
    rewrite Forall_forall in Hids. exact (Hids entry Hin Hnull).
  - exists (Raise KeyboardInterrupt), new. auto.
Qed.

(** X8. [get_metar_data] of the modified variant raises no exception: it
    returns a dict or is interrupted; and when the request raises, it
    returns the empty dict, having logged the error and nothing else. *)
Theorem get_metar_data_absorbs_failures (icao_codes : list string) (s : State) :
  ((exists results s', get_metar_data icao_codes s = (Ret results, s'))
   \/ (exists s', get_metar_data icao_codes s = (Raise KeyboardInterrupt, s')))
  /\ forall e env',
       session_get icao_codes (env s) = (Raise (Exception e), env') ->
       get_metar_data icao_codes s
       = (Ret [], {| env := env';
                     trace := trace s
                              ++ [Logged ERROR ("Error fetching METAR data: " ^^ e)] |}).
Proof.
  pose proof (get_metar_data_cases icao_codes s) as H.
  destruct (session_get icao_codes (env s)) as [[data|[e|]] env'].
  - destruct H as ([results|[e|]] & new & H & _ & Hr); [| contradiction |];
      (split; [|discriminate]); eauto.
  - split; [eauto|]. intros e0 env0 E. now injection E as <- <-.
  - split; [eauto|discriminate].
Qed.

(** X9. The dict [get_metar_data] returns is well keyed: the keys are
    distinct, non-empty and upper-case; weather data sits under the code of
    its own station and has one of the four flight categories, a parse
    error keeps the raw text. *)
Theorem fetched_results_are_well_keyed (icao_codes : list string) (s : State) :
  match fst (get_metar_data icao_codes s) with
  | Ret results => well_keyed results
  | Raise _ => True
  end.
Proof.
  pose proof (get_metar_data_cases icao_codes s) as H.
  destruct (session_get icao_codes (env s)) as [[data|[e|]] env'].
  - destruct H as (r & new & -> & _ & Hr). cbn [fst].
    destruct r as [results|[e|]]; tauto.
  - rewrite H. apply well_keyed_nil.
  - now rewrite H.
Qed.

(** X10. When the answer holds several reports for one station, and no
    entry of it has [null] for its id, the last of the reports is the one
    the result keeps; a station without a kept report is not in the
    result. *)
Theorem latest_report_is_kept (icao_codes : list string) (s : State)
    (data : list ApiEntry) (env' : Env) (results : list (string * Modified.StationData))
    (s' : State)
    (Hanswer : session_get icao_codes (env s) = (Ret data, env'))
    (Hids : Forall (fun entry => icaoId entry <> Null) data)
    (Hresult : get_metar_data icao_codes s = (Ret results, s')) :
  forall k,
    dict_get results k
    = match find (reports k) (rev data) with
      | Some entry => stored Metar_Metar entry
      | None => None
      end.
Proof.
  pose proof (get_metar_data_cases icao_codes s) as H. rewrite Hanswer in H.
  destruct H as (r & new & H & _ & Hr). rewrite Hresult in H.
  injection H as <- _. now apply Hr.
Qed.

End Fetching.

(** An entry whose id is [null] costs the whole answer: the loop raises on
    it outside the [try] of the entry, and the method returns the empty
    dict, although Boston is reported before and after it. *)
Example null_id_empties_the_result :
  let answer :=
    [{| icaoId := Text "KBOS"; rawOb := Some "clear"; obsTime := Some 1 |};
     {| icaoId := Null; rawOb := Some "clear"; obsTime := Some 1 |};
     {| icaoId := Text "KBOS"; rawOb := Some "layered"; obsTime := Some 2 |}]%string in
  Modified.MetarApiClient.get_metar_data (RT := Sample.runtime)
    (fun _ n => (Ret answer, n)) Sample.parser ["KBOS"]%string Sample.boot
  = (Ret [],
     @Build_State Sample.runtime 0%nat
       [Logged ERROR
          "Error fetching METAR data: 'NoneType' object has no attribute 'upper'"]).
Proof. reflexivity. Qed.

Lemma latest_report_is_kept_witness :
  exists results s',
    Modified.MetarApiClient.get_metar_data (RT := Sample.runtime)
      Sample.session Sample.parser ["KBOS"; "KORH"]%string Sample.boot
    = (Ret results, s')
    /\ map fst results = ["KBOS"; "KORH"]%string
    /\ dict_get results "KBOS"
       = Some (Modified.Weather
                 (Modified.MetarApiClient.weather_data_of "KBOS" "clear" (Some 2)
                    Sample.clear_day))
    /\ dict_get results "KBED" = None.
Proof.
  assert (Hids : Forall (fun entry => icaoId entry <> Null) Sample.answer)
    by (repeat constructor; discriminate).
  eexists _, _. split; [reflexivity|]. split; [reflexivity|].
  split.
  - exact (latest_report_is_kept (RT := Sample.runtime) Sample.session Sample.parser
             ["KBOS"; "KORH"]%string Sample.boot Sample.answer 0%nat _ _
             eq_refl Hids eq_refl "KBOS"%string).
  - exact (latest_report_is_kept (RT := Sample.runtime) Sample.session Sample.parser
             ["KBOS"; "KORH"]%string Sample.boot Sample.answer 0%nat _ _
             eq_refl Hids eq_refl "KBED"%string).
Defined.

(** ** From the fetch to the manager *)

Lemma accepted_le_attempted (t : list Event) : (accepted t <= length (attempted t))%nat.
Proof.
  induction t as [|[| |e md [msg|]] t IH]; cbn; lia.
Qed.

Section Delivery.
Context `{RT : Runtime}.
Variable session_get : list string -> Env -> res (list ApiEntry) * Env.
Variable Metar_Metar : string -> res ParsedMetar.
Variable self : Modified.LatticeWeatherIntegration.

#[local] Abbreviation client :=
  (Modified.MetarApiClient.get_metar_data session_get Metar_Metar).

Lemma entity_of_a_category (icao : string) (airport : Airport.t)
    (wd : Modified.WeatherData) (cat : string) (st : State) :
  Modified.flight_condition wd = Some cat -> is_category cat ->
  match Modified.create_weather_entity icao airport wd st with
  | (Ret e, _) =>
      band (health_status (entity_health e)) <> BandOffline
      /\ disposition (mil_view e)
         = Modified.FlightConditions.get_disposition_for_condition cat
      /\ has_component e "Flight Condition"
  | (Raise _, _) => wind_above_30 wd
  end.
Proof.
  intros Hfc Hcat.
  assert (Hget : Modified.get_flight_condition wd = cat)
    by (unfold Modified.get_flight_condition; now rewrite Hfc).
  revert Hget. clear Hfc.
  synthesize wd; try gale; intros <-; rewrite has_component_existsb;
    destruct Hcat as [E | [E | [E | E]]]; rewrite E; cbn;
    repeat split; discriminate.
Qed.

(** X11. Weather data that comes out of [get_metar_data] never makes the
    synthesizer fall back on the category 'Unknown': the entity it returns
    has a flight-condition component and an overall health other than
    OFFLINE.  It returns no entity only on a wind above 30 knots. *)
Theorem fetched_weather_is_never_offline (icao_codes : list string) (s : State) :
  match fst (client icao_codes s) with
  | Ret results =>
      Forall (fun station =>
                match snd station with
                | Modified.Weather w =>
                    Modified.get_flight_condition w <> "Unknown"%string
                    /\ forall airport t,
                         match Modified.create_weather_entity (fst station) airport w t with
                         | (Ret e, _) =>
                             band (health_status (entity_health e)) <> BandOffline
                             /\ has_component e "Flight Condition"
                         | (Raise _, _) => wind_above_30 w
                         end
                | Modified.ParseError _ _ => True
                end) results
  | Raise _ => True
  end.
Proof.
  assert (Hwk : match fst (client icao_codes s) with
                | Ret results => well_keyed results
                | Raise _ => True
                end).
  { pose proof (get_metar_data_cases session_get Metar_Metar icao_codes s) as H.
    destruct (session_get icao_codes (env s)) as [[data|[e|]] env'].
    - destruct H as (r & new & -> & _ & Hr). cbn [fst].
      destruct r as [results|[e|]]; tauto.
    - rewrite H. apply well_keyed_nil.
    - now rewrite H. }
  destruct (fst (client icao_codes s)) as [results|]; [|exact I].
  destruct Hwk as [_ Hall]. eapply Forall_impl; [|exact Hall].
  intros [k [w|err raw]] (_ & _ & Hv); cbn [fst snd] in *; [|exact I].
  destruct Hv as (_ & fc & Hfc & Hcat). split.
  - unfold Modified.get_flight_condition. rewrite Hfc.
    destruct Hcat as [-> | [-> | [-> | ->]]]; discriminate.
  - intros airport t.
    pose proof (entity_of_a_category k airport w fc t Hfc Hcat) as H.
    destruct (Modified.create_weather_entity k airport w t) as [[e|ex] t'];
      [|assumption].
    destruct H as (Hb & _ & Hc). now split.
Qed.

(** X12. With the client of the file, a cycle of [start] raises no
    exception, so the handler of the loop has nothing to catch: the cycle
    returns or is interrupted.  When the request fails the cycle logs two
    errors and hands nothing to the manager. *)
Theorem cycle_with_the_client_raises_nothing (s : State) :
  ((exists s', Modified.cycle self client s = (Ret tt, s'))
   \/ (exists s', Modified.cycle self client s = (Raise KeyboardInterrupt, s')))
  /\ forall e env',
       session_get (map fst (Modified.airports self)) (env s)
       = (Raise (Exception e), env') ->
       Modified.cycle self client s
       = (Ret tt,
          {| env := env';
             trace := trace s
                      ++ [Logged ERROR ("Error fetching METAR data: " ^^ e);
                          Logged ERROR "Failed to retrieve any METAR data"] |}).
Proof.
  unfold Modified.cycle, Modified.publish_weather_entities, bind, logger, emit.
  pose proof (get_metar_data_cases session_get Metar_Metar
                (map fst (Modified.airports self)) s) as H.
  destruct (session_get (map fst (Modified.airports self)) (env s))
    as [[data|[e|]] env'].
  - destruct H as (r & new & -> & _ & Hr). split; [|discriminate].
    destruct r as [[|station results]|[e|]]; [ | | contradiction | ].
    + left. eexists. reflexivity.
    + left. cbn [env trace].
      match goal with
      | |- context [Modified.publish_from self 0%nat ?l ?st] =>
          destruct (publish_from_returns self l 0%nat st) as (new' & s' & -> & _)
      end.
      eexists. reflexivity.
    + right. eexists. reflexivity.
  - rewrite H. split; [left; eexists; reflexivity|].
    intros e0 env0 E. injection E as <- <-. cbn. now rewrite <- app_assoc.
  - rewrite H. split; [right; eexists; reflexivity|discriminate].
Qed.

(** X13. [publish_entity] calls the manager once.  The call carries the
    environment token as bearer authorization, and the sandbox header
    exactly when a sandbox token is set and not empty; the method returns
    when the manager accepts, and otherwise logs the error and raises the
    exception the manager raised. *)
Theorem publish_entity_calls_once (entity : Entity) (s : State) :
  exists metadata failure s',
    Modified.publish_entity self entity s
    = (match failure with None => Ret tt | Some msg => Raise (Exception msg) end, s')
    /\ stub_publish_entity entity metadata (env s) = (failure, env s')
    /\ trace s'
       = trace s ++ Sent entity metadata failure
                    :: match failure with
                       | None => []
                       | Some msg => [Logged ERROR ("Error publishing entity: " ^^ msg)]
                       end
    /\ dict_get metadata "authorization"
       = Some ("Bearer " ^^ Modified.environment_token self)
    /\ dict_get metadata "anduril-sandbox-authorization"
       = match Modified.sandboxes_token self with
         | Some token => if truthy_str token then Some ("Bearer " ^^ token) else None
         | None => None
         end.
Proof.
  unfold Modified.publish_entity, try_except, stub_call.
  match goal with
  | |- context [stub_publish_entity entity ?md (env s)] =>
      exists md; destruct (stub_publish_entity entity md (env s)) as [failure env'] eqn:E
  end.
  exists failure. destruct failure as [msg|].
  - eexists. split; [reflexivity|]. cbn. rewrite <- app_assoc.
    repeat split; destruct (Modified.sandboxes_token self) as [token|]; cbn;
      try reflexivity; destruct (truthy_str token); reflexivity.
  - eexists. split; [reflexivity|]. cbn.
    repeat split; destruct (Modified.sandboxes_token self) as [token|]; cbn;
      try reflexivity; destruct (truthy_str token); reflexivity.
Qed.

(** X14. [publish_weather_entities] never reports more entities than it
    handed to the manager, nor hands over more than the batch has stations;
    and every entity it hands over is named after an airport of the
    table. *)
Theorem published_count_is_bounded
    (metar_data : list (string * Modified.StationData)) (s : State) :
  exists count new s',
    Modified.publish_weather_entities self metar_data s = (Ret count, s')
    /\ trace s' = trace s ++ new
    /\ (count <= length (attempted new) <= length metar_data)%nat
    /\ Forall (fun entity_id =>
                 exists icao, In icao (map fst (Modified.airports self))
                              /\ entity_id = "weather_" ^^ icao)
         (attempted new).
Proof.
  unfold Modified.publish_weather_entities.
  destruct (publish_from_returns self metar_data 0%nat s) as (new & s' & H & Ht & Hatt).
  exists (accepted new), new, s'. repeat split; auto.
  - apply accepted_le_attempted.
  - rewrite Hatt, length_map. apply filter_length_le.
  - rewrite Hatt. apply Forall_forall. intros x Hx.
    apply in_map_iff in Hx as ([icao data] & <- & Hin).
    apply filter_In in Hin as [_ Hp]. apply andb_true_iff in Hp as [Hp _].
    exists icao. split; [|reflexivity].
    unfold publishable in Hp. cbn [fst snd] in Hp.
    destruct data; [|discriminate].
    destruct (dict_get (Modified.airports self) icao) eqn:E; [|discriminate].
    eapply dict_get_in; eassumption.
Qed.

End Delivery.

(** ** An interrupt of a cycle *)

Section Ends.
Context `{RT : Runtime}.

Lemma while_true_cases (body : M bool) :
  (forall s, (exists s', body s = (Ret true, s'))
             \/ (exists s', body s = (Raise KeyboardInterrupt, s'))) ->
  forall n s,
    (exists s', while_true n body s = (Ret Looping, s'))
    \/ (exists s', while_true n body s = (Raise KeyboardInterrupt, s')).
Proof.
  intros Hbody n. induction n as [|n IH]; intro s; cbn [while_true].
  - left. eexists. reflexivity.
  - unfold bind. destruct (Hbody s) as [[s' ->]|[s' ->]]; [apply IH|].
    right. eexists. reflexivity.
Qed.

Variable self : Modified.LatticeWeatherIntegration.
Variable client : list string -> M (list (string * Modified.StationData)).

(** One turn of [start] in the monad: it ends with the sleep, unless the
    cycle raised a [KeyboardInterrupt]. *)
Lemma start_iteration_cases (s : State) :
  (exists t env',
      Modified.iteration self client s
      = (Ret true,
         {| env := env';
            trace := t ++ [Slept (Modified.update_interval_minutes self * 60)] |}))
  \/ (exists s', Modified.cycle self client s = (Raise KeyboardInterrupt, s')
                 /\ Modified.iteration self client s = (Raise KeyboardInterrupt, s')).
Proof.
  unfold Modified.iteration, try_except, bind.
  destruct (Modified.cycle self client s) as [[[]|[e|]] s1].
  - left. eexists _, _. cbn. reflexivity.
  - left. eexists _, _. cbn. reflexivity.
  - right. eexists. split; reflexivity.
Qed.

(** X15. A [KeyboardInterrupt] raised inside a cycle of [start] is not
    caught by [except Exception]: the turn raises it in the state the cycle
    left, with no error record, no waiting record and no sleep after it, and
    the loop raises it whatever the number of turns still to come; so does
    [start] when the interrupted cycle is its first. *)
Theorem interrupt_of_a_cycle_leaves_start (n : nat) (s s' : State) :
  Modified.cycle self client s = (Raise KeyboardInterrupt, s') ->
  Modified.iteration self client s = (Raise KeyboardInterrupt, s')
  /\ while_true (S n) (Modified.iteration self client) s = (Raise KeyboardInterrupt, s')
  /\ (forall s0,
        s = {| env := env s0;
               trace := trace s0
                        ++ [Logged INFO
                              ("Starting METAR to Lattice integration with "
                                ^^ str_of_int (Modified.update_interval_minutes self)
                                ^^ "-minute updates")] |} ->
        Modified.start self client (S n) s0 = (Raise KeyboardInterrupt, s')).
Proof.
  intro Hcycle.
  assert (Hturn : Modified.iteration self client s = (Raise KeyboardInterrupt, s')).
  { unfold Modified.iteration, try_except, bind. now rewrite Hcycle. }
  assert (Hloop : while_true (S n) (Modified.iteration self client) s
                  = (Raise KeyboardInterrupt, s')).
  { cbn [while_true]. unfold bind. now rewrite Hturn. }
  split; [exact Hturn|]. split; [exact Hloop|].
  intros s0 ->. unfold Modified.start.
  unfold bind at 1. unfold logger, emit. exact Hloop.
Qed.

Variable airports : list (string * Airport.t).
Variable metar_client : list string -> M (list (string * Original.MetarInfo)).
Variable taf_client : list string -> M (list (string * Original.TafInfo)).
Variable publisher :
  string -> Airport.t -> Original.MetarInfo -> option Original.TafInfo -> M bool.
Variable minutes : Z.

#[local] Abbreviation run_cycle :=
  (Original.cycle airports metar_client taf_client publisher minutes).
#[local] Abbreviation run_iteration :=
  (Original.iteration airports metar_client taf_client publisher minutes).

(** X16. A [KeyboardInterrupt] raised inside a cycle of [run_integration]
    is caught by the loop's own handler: the turn logs that the user stopped
    the integration and breaks, with no error record and no sleep after it,
    and the loop has ended by [break] whatever the number of turns still to
    come; so has [run_integration] when the interrupted cycle is its
    first. *)
Theorem interrupt_of_a_cycle_breaks_run_integration (n : nat) (s s' : State) :
  run_cycle s = (Raise KeyboardInterrupt, s') ->
  let stopped :=
    {| env := env s';
       trace := trace s' ++ [Logged INFO "Integration stopped by user"] |} in
  run_iteration s = (Ret false, stopped)
  /\ while_true (S n) run_iteration s = (Ret Broken, stopped)
  /\ (forall s0,
        s = {| env := env s0;
               trace := trace s0
                        ++ [Logged INFO
                              ("Starting METAR to Lattice integration with "
                                ^^ str_of_int minutes ^^ "-minute updates")] |} ->
        Original.run_integration airports metar_client taf_client publisher minutes
          (S n) s0
        = (Ret Broken, stopped)).
Proof.
  intros Hcycle stopped.
  assert (Hturn : run_iteration s = (Ret false, stopped)).
  { unfold Original.iteration. now rewrite Hcycle. }
  assert (Hloop : while_true (S n) run_iteration s = (Ret Broken, stopped)).
  { cbn [while_true]. unfold bind. now rewrite Hturn. }
  split; [exact Hturn|]. split; [exact Hloop|].
  intros s0 ->. unfold Original.run_integration.
  unfold bind at 1. unfold logger, emit. exact Hloop.
Qed.

End Ends.

Lemma interrupt_of_a_cycle_leaves_start_witness :
  let started :=
    @Build_State Sample.runtime 0%nat
      [Logged INFO "Starting METAR to Lattice integration with 30-minute updates"] in
  Modified.cycle (Sample.integration 30) Sample.interrupted_client started
  = (Raise KeyboardInterrupt, started)
  /\ Modified.start (Sample.integration 30) Sample.interrupted_client 3 Sample.boot
     = (Raise KeyboardInterrupt, started).
Proof.
  cbv zeta.
  assert (H : Modified.cycle (Sample.integration 30) Sample.interrupted_client
                (@Build_State Sample.runtime 0%nat
                   [Logged INFO
                      "Starting METAR to Lattice integration with 30-minute updates"])
              = (Raise KeyboardInterrupt,
                 @Build_State Sample.runtime 0%nat
                   [Logged INFO
                      "Starting METAR to Lattice integration with 30-minute updates"]))
    by reflexivity.
  split; [exact H|].
  exact (proj2 (proj2 (interrupt_of_a_cycle_leaves_start
                         (Sample.integration 30) Sample.interrupted_client 2 _ _ H))
           Sample.boot eq_refl).
Defined.

Lemma interrupt_of_a_cycle_breaks_run_integration_witness :
  let interrupted :=
    @Build_State Sample.runtime 0%nat
      [Logged INFO "Starting METAR to Lattice integration with 30-minute updates";
       Logged INFO "Retrieving METAR data..."] in
  Original.cycle Sample.airports Sample.interrupted_client Sample.failing_client
    Sample.no_publish 30
    (@Build_State Sample.runtime 0%nat
       [Logged INFO "Starting METAR to Lattice integration with 30-minute updates"])
  = (Raise KeyboardInterrupt, interrupted)
  /\ Original.run_integration Sample.airports Sample.interrupted_client
       Sample.failing_client Sample.no_publish 30 3 Sample.boot
     = (Ret Broken,
        @Build_State Sample.runtime 0%nat
          [Logged INFO "Starting METAR to Lattice integration with 30-minute updates";
           Logged INFO "Retrieving METAR data...";
           Logged INFO "Integration stopped by user"]).
Proof.
  cbv zeta.
  assert (H : Original.cycle Sample.airports Sample.interrupted_client
                Sample.failing_client Sample.no_publish 30
                (@Build_State Sample.runtime 0%nat
                   [Logged INFO
                      "Starting METAR to Lattice integration with 30-minute updates"])
              = (Raise KeyboardInterrupt,
                 @Build_State Sample.runtime 0%nat
                   [Logged INFO
                      "Starting METAR to Lattice integration with 30-minute updates";
                    Logged INFO "Retrieving METAR data..."]))
    by reflexivity.
  split; [exact H|].
  exact (proj2 (proj2 (interrupt_of_a_cycle_breaks_run_integration
                         Sample.airports Sample.interrupted_client Sample.failing_client
                         Sample.no_publish 30 2 _ _ H))
           Sample.boot eq_refl).
Defined.

(** ** Fetching, original variant *)

Section OriginalFetching.
Context `{RT : Runtime}.
Variable session_get : list string -> Env -> Original.MetarApiClient.Response * Env.
Variable Metar_Metar : string -> res ParsedMetar.

#[local] Abbreviation get_metar_data :=
  (Original.MetarApiClient.get_metar_data session_get Metar_Metar).

(** A processed entry is an observation with a flight category or the
    dict of a failed parse, never a dict with the key ['error']. *)
Lemma _process_metar_data_cases (metar_data : ApiEntry) (s : State) :
  (exists info new,
      Original._process_metar_data Metar_Metar metar_data s
      = (Ret info, {| env := env s; trace := trace s ++ new |})
      /\ only_logs new
      /\ Original.valid_metar (Some info) = true
      /\ match info with
         | Original.Observed o => is_category (Original.flight_condition o)
         | Original.Unparsed _ _ _ => True
         | Original.Failed _ => False
         end)
  \/ Original._process_metar_data Metar_Metar metar_data s = (Raise KeyboardInterrupt, s).
Proof.
  unfold Original._process_metar_data.
  destruct (Metar_Metar _) as [metar_obj|[e|]].
  - left. exists (Original.Observed
                    (Original.observation_of (get_str (rawOb metar_data))
                       (obsTime metar_data) metar_obj)), [].
    rewrite app_nil_r. destruct s. unfold get_str.
    repeat split; [constructor|]. apply determine_is_category.
  - left. eexists _, _. split; [reflexivity|]. repeat split. repeat constructor.
  - right. reflexivity.
Qed.

Lemma original_collect_returns (icao_codes : list string) (data : list ApiEntry) :
  forall (metar_dict : list (string * Original.MetarInfo)) (s : State),
    requested_and_valid icao_codes metar_dict ->
    exists r new,
      Original.MetarApiClient.collect Metar_Metar icao_codes metar_dict data s
      = (r, {| env := env s; trace := trace s ++ new |})
      /\ only_logs new
      /\ match r with
         | Ret metar_dict' => requested_and_valid icao_codes metar_dict'
         | Raise KeyboardInterrupt => True
         | Raise (Exception _) => Exists (fun entry => icaoId entry = Null) data
         end.
Proof.
  induction data as [|entry rest IH]; intros metar_dict s Hinv.
  - exists (Ret metar_dict), []. rewrite app_nil_r. destruct s.
    repeat split; try apply Hinv; constructor.
  - cbn [Original.MetarApiClient.collect].
    unfold bind at 1, lift.
    destruct (get_upper (icaoId entry)) as [icao|ex] eqn:Hid.
    2:{ destruct (get_upper_raises _ _ Hid) as (Hnull & msg & ->).
        exists (Raise (Exception msg)), []. rewrite app_nil_r. destruct s.
        repeat split; [constructor | now left]. }
    assert (Hrest : forall r : res (list (string * Original.MetarInfo)),
               match r with
               | Ret metar_dict' => requested_and_valid icao_codes metar_dict'
               | Raise KeyboardInterrupt => True
               | Raise (Exception _) => Exists (fun entry => icaoId entry = Null) rest
               end ->
               match r with
               | Ret metar_dict' => requested_and_valid icao_codes metar_dict'
               | Raise KeyboardInterrupt => True
               | Raise (Exception _) =>
                   Exists (fun entry => icaoId entry = Null) (entry :: rest)
               end).
    { intros [d|[e|]]; auto. }
    destruct (existsb (String.eqb icao) icao_codes) eqn:Hreq.
    2:{ destruct (IH metar_dict s Hinv) as (r & new & Hc & Hl & Hr).
        exists r, new. split; [exact Hc|]. split; [exact Hl | now apply Hrest]. }
    unfold bind at 1.
    destruct (_process_metar_data_cases entry s) as [(info & new1 & -> & Hl1 & Hv & Hi)| ->].
    + destruct (IH (dict_set metar_dict icao info)
                   {| env := env s; trace := trace s ++ new1 |})
        as (r & new2 & Hc & Hl2 & Hr).
      { destruct Hinv as [Hnd Hall]. split; [now apply dict_set_nodup|].
        rewrite Forall_forall in *. intros x Hx.
        apply dict_set_in in Hx as [->|Hx]; [|now apply Hall].
        cbn [fst snd]. split; [|now split].
        apply existsb_exists in Hreq as (c & Hc & Heq).
        apply String.eqb_eq in Heq. now subst c. }
      exists r, (new1 ++ new2). cbn [env trace] in Hc. rewrite Hc, app_assoc.
      split; [reflexivity|]. split; [now apply only_logs_app | now apply Hrest].
    + exists (Raise KeyboardInterrupt), []. rewrite app_nil_r. destruct s.
      repeat split. constructor.
Qed.

Lemma original_get_metar_data_cases (icao_codes : list string) (s : State) :
  let requesting :=
    Logged INFO ("Requesting METAR data for " ^^ str_of_nat (length icao_codes)
                  ^^ " airports") in
  match session_get icao_codes (env s) with
  | (Original.MetarApiClient.Answered data, env') =>
      exists r new,
        get_metar_data icao_codes s
        = (r, {| env := env'; trace := trace s ++ requesting :: new |})
        /\ only_logs new
        /\ match r with
           | Ret metar_dict => requested_and_valid icao_codes metar_dict
           | Raise KeyboardInterrupt => True
           | Raise (Exception _) => False
           end
  | (Original.MetarApiClient.RequestException e, env') =>
      get_metar_data icao_codes s
      = (Ret [], {| env := env';
                    trace := trace s ++ [requesting;
                                         Logged ERROR ("Failed to retrieve METAR data: " ^^ e)] |})
  | (Original.MetarApiClient.OtherException e, env') =>
      get_metar_data icao_codes s
      = (Ret [], {| env := env';
                    trace := trace s ++ [requesting;
                                         Logged ERROR ("Error processing METAR data: " ^^ e)] |})
  | (Original.MetarApiClient.Interrupted, env') =>
      get_metar_data icao_codes s
      = (Raise KeyboardInterrupt, {| env := env'; trace := trace s ++ [requesting] |})
  end.
Proof.
  cbv zeta.
  set (requesting := Logged INFO _).
  assert (E : get_metar_data icao_codes s
              = let '(r, e') := session_get icao_codes (env s) in
                let s' := {| env := e'; trace := trace s ++ [requesting] |} in
                match r with
                | Original.MetarApiClient.Answered data =>
                    try_except
                      (metar_dict <-
                         Original.MetarApiClient.collect Metar_Metar icao_codes [] data ;;
                       logger INFO ("Successfully retrieved METAR data for "
                                     ^^ str_of_nat (length metar_dict) ^^ " airports") ;;;
                       ret metar_dict)
                      (fun e => logger ERROR ("Error processing METAR data: " ^^ e) ;;;
                                ret [])
                      s'
                | Original.MetarApiClient.RequestException e =>
                    (logger ERROR ("Failed to retrieve METAR data: " ^^ e) ;;; ret []) s'
                | Original.MetarApiClient.OtherException e =>
                    (logger ERROR ("Error processing METAR data: " ^^ e) ;;; ret []) s'
                | Original.MetarApiClient.Interrupted => (Raise KeyboardInterrupt, s')
                end) by reflexivity.
  rewrite E. clear E.
  destruct (session_get icao_codes (env s)) as [[data|e|e|] env'];
    try (cbn; rewrite <- ?app_assoc; reflexivity).
  unfold try_except, bind.
  match goal with
  | |- context [Original.MetarApiClient.collect Metar_Metar icao_codes [] data ?st] =>
      destruct (original_collect_returns icao_codes data [] st) as (r & new & Hc & Hl & Hr)
  end.
  { split; constructor. }
  cbn [env trace] in Hc. rewrite Hc.
  destruct r as [metar_dict|[e|]].
  - eexists (Ret metar_dict), _. cbn. rewrite <- !app_assoc. cbn.
    split; [reflexivity|]. split; [|assumption].
    apply only_logs_app; [assumption | repeat constructor].
  - eexists (Ret []), _. cbn. rewrite <- !app_assoc. cbn.
    split; [reflexivity|]. split; [|split; constructor].
    apply only_logs_app; [assumption | repeat constructor].
  - exists (Raise KeyboardInterrupt), new. cbn. rewrite <- !app_assoc.
    split; [reflexivity|]. split; [assumption | exact I].
Qed.

(** X17. [get_metar_data] of the original variant raises no exception: it
    returns a dict or is interrupted.  A request that fails gives the empty
    dict, with one error record whose text tells a request failure from
    any other. *)
Theorem original_get_metar_data_absorbs_failures (icao_codes : list string) (s : State) :
  ((exists metar_dict s', get_metar_data icao_codes s = (Ret metar_dict, s'))
   \/ (exists s', get_metar_data icao_codes s = (Raise KeyboardInterrupt, s')))
  /\ (forall e env',
        session_get icao_codes (env s) = (Original.MetarApiClient.RequestException e, env') ->
        exists s',
          get_metar_data icao_codes s = (Ret [], s')
          /\ filter (fun ev => match ev with Logged ERROR _ => true | _ => false end)
               (trace s')
             = filter (fun ev => match ev with Logged ERROR _ => true | _ => false end)
                 (trace s)
               ++ [Logged ERROR ("Failed to retrieve METAR data: " ^^ e)])
  /\ (forall e env',
        session_get icao_codes (env s) = (Original.MetarApiClient.OtherException e, env') ->
        exists s',
          get_metar_data icao_codes s = (Ret [], s')
          /\ filter (fun ev => match ev with Logged ERROR _ => true | _ => false end)
               (trace s')
             = filter (fun ev => match ev with Logged ERROR _ => true | _ => false end)
                 (trace s)
               ++ [Logged ERROR ("Error processing METAR data: " ^^ e)]).
Proof.
  pose proof (original_get_metar_data_cases icao_codes s) as H. cbv zeta in H.
  destruct (session_get icao_codes (env s)) as [[data|e|e|] env'].
  - destruct H as ([metar_dict|[e|]] & new & H & _ & Hr); [| contradiction |];
      (split; [eauto | split; discriminate]).
  - split; [eauto|]. split; [|discriminate].
    intros e0 env0 E. injection E as <- <-. eexists. split; [exact H|].
    cbn. now rewrite filter_app.
  - split; [eauto|]. split; [discriminate|].
    intros e0 env0 E. injection E as <- <-. eexists. split; [exact H|].
    cbn. now rewrite filter_app.
  - split; [eauto|]. split; discriminate.
Qed.

(** X18. The dict of the original variant holds requested stations only,
    each once, and every value in it passes for valid METAR data in
    [run_integration], a report that did not parse included: the loop
    publishes an entity for it. *)
Theorem original_results_are_requested_and_valid (icao_codes : list string) (s : State) :
  match fst (get_metar_data icao_codes s) with
  | Ret metar_dict => requested_and_valid icao_codes metar_dict
  | Raise _ => True
  end.
Proof.
  pose proof (original_get_metar_data_cases icao_codes s) as H. cbv zeta in H.
  destruct (session_get icao_codes (env s)) as [[data|e|e|] env'].
  - destruct H as (r & new & -> & _ & Hr). cbn [fst].
    destruct r as [metar_dict|[e|]]; tauto.
  - rewrite H. split; constructor.
  - rewrite H. split; constructor.
  - now rewrite H.
Qed.

End OriginalFetching.

(** ** The batch of the original variant *)

Lemma dict_get_of_key {V} (d : list (string * V)) (k : string) :
  In k (map fst d) -> exists v, dict_get d k = Some v.
Proof.
  induction d as [|[k0 v0] d IH]; cbn; [intros []|].
  intros [->|Hin].
  - rewrite String.eqb_refl. eauto.
  - destruct (String.eqb k k0); eauto.
Qed.

Section OriginalBatch.
Context `{RT : Runtime}.
Variable airports : list (string * Airport.t).
Variable publisher :
  string -> Airport.t -> Original.MetarInfo -> option Original.TafInfo -> M bool.
Hypothesis publisher_returns :
  forall icao airport info taf s, exists b s', publisher icao airport info taf s = (Ret b, s').

Lemma publish_all_returns (metar_data : list (string * Original.MetarInfo))
    (taf_data : list (string * Original.TafInfo)) (icao_codes : list string) :
  Forall (fun icao => In icao (map fst airports)) icao_codes ->
  forall (count : nat) (s : State),
  exists n s',
    Original.publish_all airports publisher metar_data taf_data count icao_codes s
    = (Ret n, s')
    /\ (count <= n <= count + length (filter (fun icao =>
                                                Original.valid_metar
                                                  (dict_get metar_data icao))
                                             icao_codes))%nat.
Proof.
  induction 1 as [|icao rest Hin _ IH]; intros count s.
  - exists count, s. cbn. split; [reflexivity | lia].
  - cbn [Original.publish_all filter].
    destruct (dict_get_of_key airports icao Hin) as (airport & ->).
    destruct (Original.valid_metar (dict_get metar_data icao)) eqn:Hv.
    + destruct (dict_get metar_data icao) as [info|]; [|discriminate].
      unfold bind at 1.
      destruct (publisher_returns icao airport info (dict_get taf_data icao) s)
        as (b & s1 & ->).
      destruct (IH (if b then S count else count) s1) as (n & s' & -> & Hn).
      exists n, s'. split; [reflexivity|]. cbn [length]. destruct b; lia.
    + unfold bind, logger, emit.
      match goal with
      | |- context [Original.publish_all _ _ _ _ count rest ?st] =>
          destruct (IH count st) as (n & s' & -> & Hn)
      end.
      exists n, s'. split; [reflexivity | lia].
Qed.

(** X19. While the publisher returns, the loop over the airport table
    returns as well: the lookup [self.airports[icao]] cannot fail on the
    table's own keys.  The number of successes is at most the number of
    stations with valid METAR data, the others being skipped. *)
Theorem original_batch_counts_valid_stations
    (metar_data : list (string * Original.MetarInfo))
    (taf_data : list (string * Original.TafInfo)) (s : State) :
  exists n s',
    Original.publish_all airports publisher metar_data taf_data 0 (map fst airports) s
    = (Ret n, s')
    /\ (n <= length (filter (fun icao => Original.valid_metar (dict_get metar_data icao))
                       (map fst airports))
        <= length airports)%nat.
Proof.
  destruct (publish_all_returns metar_data taf_data (map fst airports)
              ltac:(now apply Forall_forall) 0%nat s) as (n & s' & H & Hn).
  exists n, s'. split; [assumption|]. split; [lia|].
  rewrite <- (length_map fst airports). apply filter_length_le.
Qed.

End OriginalBatch.

Lemma original_batch_counts_valid_stations_witness :
  exists n s',
    Original.publish_all (RT := Sample.runtime) Sample.airports Sample.no_publish
      [("KBOS", Original.Unparsed "garbage" None "Unparsed groups");
       ("KORH", Original.Failed "timeout")]%string [] 0
      (map fst Sample.airports) Sample.boot
    = (Ret n, s')
    /\ (n <= 1)%nat.
Proof.
  destruct (original_batch_counts_valid_stations (RT := Sample.runtime)
              Sample.airports Sample.no_publish
              ltac:(intros; eexists _, _; reflexivity)
              [("KBOS", Original.Unparsed "garbage" None "Unparsed groups");
               ("KORH", Original.Failed "timeout")]%string [] Sample.boot)
    as (n & s' & H & Hn & _).
  exists n, s'. split; [exact H | exact Hn].
Defined.

(** ** Starting the process *)

Section Starting.
Context `{RT : Runtime}.
Variable getenv : string -> option string.
Variable get_airports : list (string * Airport.t).
Variable session_get : list string -> Env -> res (list ApiEntry) * Env.
Variable Metar_Metar : string -> res ParsedMetar.

#[local] Abbreviation init := (Modified.__init__ getenv get_airports).

Lemma truthy_get_str (x : option string) :
  truthy_opt_str x = true -> x = Some (get_str x) /\ get_str x <> ""%string.
Proof.
  destruct x as [[|c x]|]; cbn; try discriminate. intros _. split; [reflexivity | discriminate].
Qed.

Lemma str_or_truthy (x y : option string) :
  truthy_opt_str x = true -> str_or x y = x.
Proof. unfold str_or. now intros ->. Qed.

Lemma str_or_falsy (x y : option string) :
  truthy_opt_str x = false -> str_or x y = y.
Proof. unfold str_or. now intros ->. Qed.

(** X20. The constructor returns exactly when a URL and a token are at
    hand, each taken from the argument when that is a non-empty string and
    from the environment otherwise; the instance then holds a non-empty
    URL and token.  In every other case it logs the missing configuration
    and raises, and no instance exists. *)
Theorem constructor_validates_configuration
    (lattice_url environment_token sandboxes_token : option string)
    (update_interval_minutes : Z) (s : State) :
  let url := str_or lattice_url (getenv "LATTICE_URL") in
  let token := str_or environment_token (getenv "ENVIRONMENT_TOKEN") in
  (truthy_opt_str url && truthy_opt_str token = true ->
   exists self new,
     init lattice_url environment_token sandboxes_token update_interval_minutes s
     = (Ret self, {| env := env s; trace := trace s ++ [Logged INFO new] |})
     /\ url = Some (Modified.lattice_url self)
     /\ token = Some (Modified.environment_token self)
     /\ Modified.lattice_url self <> ""%string
     /\ Modified.environment_token self <> ""%string
     /\ Modified.update_interval_minutes self = update_interval_minutes
     /\ Modified.airports self = get_airports)
  /\ (truthy_opt_str url && truthy_opt_str token = false ->
      exists text,
        init lattice_url environment_token sandboxes_token update_interval_minutes s
        = (Raise (Exception "Missing Lattice configuration."),
           {| env := env s; trace := trace s ++ [Logged ERROR text] |}))
  /\ (truthy_opt_str lattice_url = true -> url = lattice_url)
  /\ (truthy_opt_str lattice_url = false -> url = getenv "LATTICE_URL").
Proof.
  cbv zeta. unfold Modified.__init__.
  set (url := str_or lattice_url _). set (token := str_or environment_token _).
  repeat split.
  - intro H. apply andb_true_iff in H as [Hu Ht]. rewrite Hu, Ht. cbn [negb orb].
    destruct (truthy_get_str _ Hu) as [Eu Nu], (truthy_get_str _ Ht) as [Et Nt].
    eexists _, _. split; [reflexivity|]. cbn. repeat split; assumption.
  - intro H. apply andb_false_iff in H.
    assert (E : negb (truthy_opt_str url) || negb (truthy_opt_str token) = true)
      by (destruct H as [-> | ->]; [reflexivity | apply orb_true_r]).
    rewrite E. eexists. reflexivity.
  - apply str_or_truthy.
  - apply str_or_falsy.
Qed.

Lemma start_cases (self : Modified.LatticeWeatherIntegration)
    (client : list string -> M (list (string * Modified.StationData))) (n : nat) (s : State) :
  (exists s', Modified.start self client n s = (Ret Looping, s'))
  \/ (exists s', Modified.start self client n s = (Raise KeyboardInterrupt, s')).
Proof.
  unfold Modified.start, bind, logger, emit. apply while_true_cases.
  intro s0. destruct (start_iteration_cases self client s0) as [(t & env' & ->)|(s' & _ & ->)];
    eauto.
Qed.

(** X21. [main] ends with [sys.exit(1)] exactly when the environment lacks
    the URL or the token.  It then has logged the two errors and done
    nothing else: no request, no entity sent, no sleep. *)
Theorem main_exits_on_missing_configuration (iterations : nat) (s : State) :
  ((exists code,
       fst (Modified.main getenv get_airports session_get Metar_Metar iterations s)
       = Modified.SysExit code)
   <-> configuration_missing getenv)
  /\ (configuration_missing getenv ->
      Modified.main getenv get_airports session_get Metar_Metar iterations s
      = (Modified.SysExit 1,
         {| env := env s;
            trace := trace s
                     ++ [Logged ERROR ("Missing Lattice configuration. "
                                        ^^ "Set LATTICE_URL and ENVIRONMENT_TOKEN "
                                        ^^ "environment variables.");
                         Logged ERROR "Integration error: Missing Lattice configuration."] |})).
Proof.
  assert (Hmiss : configuration_missing getenv ->
                  Modified.main getenv get_airports session_get Metar_Metar iterations s
                  = (Modified.SysExit 1,
                     {| env := env s;
                        trace := trace s
                                 ++ [Logged ERROR ("Missing Lattice configuration. "
                                                    ^^ "Set LATTICE_URL and ENVIRONMENT_TOKEN "
                                                    ^^ "environment variables.");
                                     Logged ERROR
                                       "Integration error: Missing Lattice configuration."] |})).
  { intro H. unfold Modified.main, Modified.__init__, str_or. cbn [truthy_opt_str].
    unfold bind at 1.
    assert (E : negb (truthy_opt_str (getenv "LATTICE_URL"))
                || negb (truthy_opt_str (getenv "ENVIRONMENT_TOKEN")) = true)
      by (destruct H as [-> | ->]; [reflexivity | apply orb_true_r]).
    rewrite E. cbn. now rewrite <- app_assoc. }
  split; [|exact Hmiss]. split.
  - intros [code Hcode].
    destruct (truthy_opt_str (getenv "LATTICE_URL")) eqn:Hu; [|now left].
    destruct (truthy_opt_str (getenv "ENVIRONMENT_TOKEN")) eqn:Ht; [|now right].
    exfalso. revert Hcode.
    unfold Modified.main, Modified.__init__, str_or. cbn [truthy_opt_str].
    rewrite Hu, Ht. cbn [negb orb]. unfold bind at 1. unfold bind at 1.
    unfold logger at 1. unfold emit. unfold ret at 1.
    match goal with
    | |- context [Modified.start ?self ?client iterations ?st] =>
        destruct (start_cases self client iterations st) as [[s' ->]|[s' ->]]
    end; discriminate.
  - intro H. rewrite (Hmiss H). eexists. reflexivity.
Qed.

End Starting.

Lemma constructor_validates_configuration_witness :
  exists self s',
    Modified.__init__ (RT := Sample.runtime) Sample.environ Sample.airports
      None (Some EmptyString) None 30 Sample.boot = (Ret self, s')
    /\ Modified.lattice_url self = "lattice.example"%string
    /\ Modified.environment_token self = "token"%string.
Proof.
  destruct (proj1 (constructor_validates_configuration (RT := Sample.runtime)
                     Sample.environ Sample.airports None (Some EmptyString) None 30
                     Sample.boot) eq_refl)
    as (self & new & H & Hu & Ht & _).
  exists self. eexists. split; [exact H|].
  injection Hu as <-. injection Ht as <-. split; reflexivity.
Defined.

Lemma main_exits_on_missing_configuration_witness :
  Modified.main (RT := Sample.runtime) Sample.no_environ Sample.airports
    Sample.session Sample.parser 3 Sample.boot
  = (Modified.SysExit 1,
     @Build_State Sample.runtime 0%nat
       [Logged ERROR ("Missing Lattice configuration. "
                       ^^ "Set LATTICE_URL and ENVIRONMENT_TOKEN environment variables.");
        Logged ERROR "Integration error: Missing Lattice configuration."]).
Proof.
  exact (proj2 (main_exits_on_missing_configuration (RT := Sample.runtime)
                  Sample.no_environ Sample.airports Sample.session Sample.parser
                  3 Sample.boot)
               (or_introl eq_refl)).
Defined.

(** The process on the sample world with its configuration in place: one
    turn of the loop fetches the answer, hands Boston to the manager, which
    refuses it, skips the report that did not parse, and sleeps. *)
Example one_turn_of_the_process :
  let '(outcome, s') :=
    Modified.main (RT := Sample.runtime) Sample.environ Sample.airports
      Sample.session Sample.parser 1 Sample.boot in
  outcome = Modified.StillRunning
  /\ attempted (trace s') = ["weather_KBOS"]%string
  /\ accepted (trace s') = 0%nat
  /\ sleeps (trace s') = [1800].
Proof. vm_compute. repeat split; reflexivity. Qed.
